(** * The Pleasant Password Server lookup plugin, embedded in Rocq

    Source files:
    - [src/pleasant.py]                 (module [Pleasant])
    - [src/plugins/lookup/pleasant.py]  (module [PluginsLookupPleasant])

    The plugin is a sequence of three HTTP calls made through the
    [requests] library, wrapped in Python [try]/[except] blocks that turn
    every library exception into an [AnsibleError].  The embedding keeps
    that shape: Python values are an inductive type, exceptions are values
    of a class hierarchy with [issubclass], and the code runs in a state
    and exception monad whose state is the trace of HTTP exchanges and the
    lines handed to [display.display]. *)

From stdpp Require Import base decidable option list strings pretty gmap.

Set Warnings "-register-all".

Open Scope Z_scope.
Open Scope string_scope.

(** ** Python values *)

Module Python.

(** The values the plugin handles: host variables, lookup terms and
    decoded JSON documents.  A [float] is carried by its [repr] text, which
    identifies the value ([repr] round-trips); a [dict] is the insertion
    ordered list of its bindings, with pairwise distinct keys. *)
Inductive pyval : Type :=
| PNone
| PBool (b : bool)
| PInt (n : Z)
| PFloat (repr : string)
| PStr (s : string)
| PList (items : list pyval)
| PDict (bindings : list (string * pyval)).

(** What the interpreter and its standard library decide and the plugin
    does not: the [repr] of a [str], and the message texts of the errors
    the interpreter raises by itself (they differ between CPython
    releases). *)
Class PyRuntime : Type := {
  repr_str : string -> string;
  unbound_local_msg : string -> string;
  add_error_msg : pyval -> pyval -> string
}.

(** [type(v).__name__] *)
Definition type_name (v : pyval) : string :=
  match v with
  | PNone => "NoneType"
  | PBool _ => "bool"
  | PInt _ => "int"
  | PFloat _ => "float"
  | PStr _ => "str"
  | PList _ => "list"
  | PDict _ => "dict"
  end.

(** The message of the [AttributeError] for [o.attr] on an object without
    that attribute. *)
Definition attribute_error_msg (o : pyval) (attr : string) : string :=
  "'" +:+ type_name o +:+ "' object has no attribute '" +:+ attr +:+ "'".

Fixpoint join (sep : string) (l : list string) : string :=
  match l with
  | [] => ""
  | [x] => x
  | x :: l' => x +:+ sep +:+ join sep l'
  end.

Section Values.
Context {rt : PyRuntime}.

(** [repr(v)] *)
Fixpoint py_repr (v : pyval) : string :=
  match v with
  | PNone => "None"
  | PBool true => "True"
  | PBool false => "False"
  | PInt n => pretty n
  | PFloat r => r
  | PStr s => repr_str s
  | PList items => "[" +:+ join ", " (map py_repr items) +:+ "]"
  | PDict bindings =>
      "{" +:+ join ", " (map (fun kv => repr_str (fst kv) +:+ ": " +:+ py_repr (snd kv))
                             bindings) +:+ "}"
  end.

(** [str(v)], which is also what an f-string field [{v}] inserts. *)
Definition py_str (v : pyval) : string :=
  match v with
  | PStr s => s
  | _ => py_repr v
  end.

End Values.

(** Truth value of [v], as tested by [if not v]. *)
Definition py_truthy (v : pyval) : bool :=
  match v with
  | PNone => false
  | PBool b => b
  | PInt n => negb (n =? 0)%Z
  | PFloat r => negb (String.eqb r "0.0" || String.eqb r "-0.0")
  | PStr s => negb (String.eqb s "")
  | PList items => match items with [] => false | _ => true end
  | PDict bindings => match bindings with [] => false | _ => true end
  end.

(** [v is None] *)
Definition is_None (v : pyval) : bool :=
  match v with PNone => true | _ => false end.

(** Lookup in the bindings of a [dict]. *)
Fixpoint dict_get (bindings : list (string * pyval)) (key : string) : option pyval :=
  match bindings with
  | [] => None
  | (k, v) :: rest => if String.eqb k key then Some v else dict_get rest key
  end.

(** *** Exceptions

    The classes that can reach the plugin's handlers: the builtins the
    interpreter raises, [ansible.errors.AnsibleError], and the hierarchy of
    [requests.exceptions]. *)
Inductive exc_class : Type :=
| Exception
| OSError | ValueError | TypeError | AttributeError
| LookupError | IndexError | NameError | UnboundLocalError
| AnsibleError | AnsibleOptionsError
| RequestException
| InvalidJSONError | JSONDecodeError
| HTTPError
| ConnectionError | ProxyError | SSLError
| Timeout | ConnectTimeout | ReadTimeout
| URLRequired | TooManyRedirects
| MissingSchema | InvalidSchema | InvalidURL.

Global Instance exc_class_eq_dec : EqDecision exc_class.
Proof. solve_decision. Defined.

(** Direct base classes, as in the [class] statements. *)
Definition bases (c : exc_class) : list exc_class :=
  match c with
  | Exception => []
  | OSError | ValueError | TypeError | AttributeError
  | LookupError | NameError | AnsibleError => [Exception]
  | AnsibleOptionsError => [AnsibleError]
  | IndexError => [LookupError]
  | UnboundLocalError => [NameError]
  | RequestException => [OSError]
  | InvalidJSONError => [RequestException]
  | JSONDecodeError => [InvalidJSONError; ValueError]
  | HTTPError | ConnectionError | Timeout
  | URLRequired | TooManyRedirects => [RequestException]
  | ProxyError | SSLError => [ConnectionError]
  | ConnectTimeout => [ConnectionError; Timeout]
  | ReadTimeout => [Timeout]
  | MissingSchema | InvalidSchema | InvalidURL => [RequestException; ValueError]
  end.

Fixpoint issubclass_upto (depth : nat) (c d : exc_class) : bool :=
  bool_decide (c = d) ||
  match depth with
  | O => false
  | S depth' => existsb (fun b => issubclass_upto depth' b d) (bases c)
  end.

(** [issubclass(c, d)]; no class is more than five steps below
    [Exception]. *)
Definition issubclass (c d : exc_class) : bool := issubclass_upto 5 c d.

(** A raised exception: its class and [str(e)]. *)
Record exn : Type := Exn { exn_class : exc_class; exn_msg : string }.

End Python.
Export Python.

(** ** Effects: the HTTP trace, the display, and raised exceptions *)

Module Effects.

(** The keyword arguments of [requests.request] as the plugin passes
    them. *)
Record request : Type := Request {
  req_method : string;
  req_url : string;
  req_headers : list (string * string);
  req_data : option string;
  req_verify : pyval;
  req_timeout : pyval
}.

(** Result of [response.json()]: the decoded document, or the message of
    the decoding error. *)
Inductive decoded : Type :=
| Json (v : pyval)
| NotJson (msg : string).

(** The attributes of [requests.Response] the plugin reads. *)
Record response : Type := Response {
  status_code : Z;
  reason : string;
  url : string;
  content : decoded
}.

(** What one call of [requests.request] does: it returns a response, or
    raises. *)
Inductive outcome : Type :=
| Responded (r : response)
| Raised (e : exn).

Definition exchange : Type := request * outcome.

(** The network and the server: they answer a request knowing the
    exchanges that came before it. *)
Definition oracle : Type := list exchange -> request -> outcome.

Record state : Type := State {
  log : list exchange;      (* HTTP exchanges, oldest first *)
  shown : list string       (* lines given to display.display, oldest first *)
}.

Definition initial : state := State [] [].

Inductive result (A : Type) : Type :=
| Return (a : A)
| Raise (e : exn).
Arguments Return {A} a.
Arguments Raise {A} e.

Definition M (A : Type) : Type := state -> result A * state.

Definition ret {A} (a : A) : M A := fun st => (Return a, st).

Definition raise {A} (e : exn) : M A := fun st => (Raise e, st).

Definition bind {A B} (m : M A) (k : A -> M B) : M B :=
  fun st =>
    match m st with
    | (Return a, st') => k a st'
    | (Raise e, st') => (Raise e, st')
    end.

Notation "x <- m ;; k" := (bind m (fun x => k))
  (at level 100, m at next level, right associativity).
Notation "m ;;; k" := (bind m (fun _ => k))
  (at level 100, right associativity).

(** One [except C as e: ...] clause. *)
Definition handler (A : Type) : Type := exc_class * (exn -> M A).

(** The clauses are tried in source order; the first whose class the
    exception is an instance of runs, and an exception no clause matches
    keeps propagating. *)
Fixpoint handle {A} (clauses : list (handler A)) (e : exn) : M A :=
  match clauses with
  | [] => raise e
  | (c, h) :: rest => if issubclass (exn_class e) c then h e else handle rest e
  end.

(** [try: body except ...] *)
Definition try_except {A} (body : M A) (clauses : list (handler A)) : M A :=
  fun st =>
    match body st with
    | (Return a, st') => (Return a, st')
    | (Raise e, st') => handle clauses e st'
    end.

(** [display.display(msg)] *)
Definition display (msg : string) : M unit :=
  fun st => (Return tt, State (log st) (shown st ++ [msg])).

(** Reading a local variable; [None] is a local that no assignment has
    bound yet. *)
Definition read_local {rt : PyRuntime} (name : string) (slot : option pyval) : M pyval :=
  match slot with
  | Some v => ret v
  | None => raise (Exn UnboundLocalError (unbound_local_msg name))
  end.

(** [a + s] for a string literal [s] on the right. *)
Definition add_str_r {rt : PyRuntime} (a : pyval) (s : string) : M string :=
  match a with
  | PStr x => ret (x +:+ s)
  | _ => raise (Exn TypeError (add_error_msg a (PStr s)))
  end.

(** [s + b] for a string literal [s] on the left. *)
Definition add_str_l {rt : PyRuntime} (s : string) (b : pyval) : M string :=
  match b with
  | PStr y => ret (s +:+ y)
  | _ => raise (Exn TypeError (add_error_msg (PStr s) b))
  end.

(** [o.get(key, dflt)]: only a [dict] has the method. *)
Definition py_get (o : pyval) (key : string) (dflt : pyval) : M pyval :=
  match o with
  | PDict bindings => ret (default dflt (dict_get bindings key))
  | _ => raise (Exn AttributeError (attribute_error_msg o "get"))
  end.

(** [l[0]] *)
Definition item0 (l : list pyval) : M pyval :=
  match l with
  | x :: _ => ret x
  | [] => raise (Exn IndexError "list index out of range")
  end.

(** A handler that does nothing but raise. *)
Definition raiser {A} (h : exn -> M A) : Prop :=
  forall e st, exists e', h e st = (Raise e', st).

End Effects.
Export Effects.

(** ** The [requests] library *)

Module Requests.

Section WithServer.
Context (server : oracle).

(** [requests.request(method, url, headers=, data=, verify=, timeout=)]:
    the exchange is recorded, then the response is returned or the
    exception raised. *)
Definition request (q : Effects.request) : M response :=
  fun st =>
    let o := server (log st) q in
    let st' := State (log st ++ [(q, o)]) (shown st) in
    match o with
    | Responded r => (Return r, st')
    | Raised e => (Raise e, st')
    end.

End WithServer.

(** The message [Response.raise_for_status] builds; empty when the status
    is neither a client nor a server error. *)
Definition http_error_msg (r : response) : string :=
  if bool_decide (400 <= status_code r < 500) then
    pretty (status_code r) +:+ " Client Error: " +:+ reason r +:+ " for url: " +:+ url r
  else if bool_decide (500 <= status_code r < 600) then
    pretty (status_code r) +:+ " Server Error: " +:+ reason r +:+ " for url: " +:+ url r
  else "".

(** The statuses for which [raise_for_status] has a message. *)
Definition is_error_status (r : response) : bool :=
  bool_decide (400 <= status_code r < 500) || bool_decide (500 <= status_code r < 600).

(** [response.raise_for_status()] *)
Definition raise_for_status (r : response) : M unit :=
  if is_error_status r
  then raise (Exn HTTPError (http_error_msg r))
  else ret tt.

(** [response.json()] *)
Definition json (r : response) : M pyval :=
  match content r with
  | Json v => ret v
  | NotJson msg => raise (Exn JSONDecodeError msg)
  end.

End Requests.

(** ** [ansible.module_utils._text] *)

Module Ansible.

(** [to_text(obj)] with the default [nonstring='simplerepr']: text is
    returned as it is, anything else goes through [str]. *)
Definition to_text {rt : PyRuntime} (obj : pyval) : string :=
  match obj with
  | PStr s => s
  | _ => py_str obj
  end.

(** [to_native(e)] of an exception is [str(e)]. *)
Definition to_native (e : exn) : string := exn_msg e.

(** [variables.get(key)] on the task's variables: the value, or [None]
    for a key that is not set. *)
Definition dict_get_or_None (variables : gmap string pyval) (key : string) : pyval :=
  default PNone (variables !! key).

(** One option of a plugin's [DOCUMENTATION]: its name, its type, its
    default, and where a value may come from besides the keyword
    arguments (variables, environment, ini files). *)
Record option_def : Type := OptionDef {
  opt_name : string;
  opt_type : option string;
  opt_default : option pyval;
  opt_vars : list string;
  opt_env : list string;
  opt_ini : list (string * string)
}.

(** Ansible's configuration manager, [C.config].  [get_config_value]
    resolves one declared option from the keyword arguments, the
    variables, the environment and the ini files, converts the value to
    the declared type, and raises when it cannot
    ([AnsibleOptionsError]). *)
Class ConfigManager : Type := {
  get_config_value :
    option_def -> gmap string pyval -> gmap string pyval -> exn + pyval
}.

(** [C.config.get_plugin_options]: every declared option in turn; the
    first one refused ends the loop. *)
Fixpoint get_plugin_options {cfg : ConfigManager} (defs : list option_def)
    (variables direct : gmap string pyval) : exn + list (string * pyval) :=
  match defs with
  | [] => inr []
  | d :: rest =>
      match get_config_value d variables direct with
      | inl e => inl e
      | inr v =>
          match get_plugin_options rest variables direct with
          | inl e => inl e
          | inr resolved => inr ((opt_name d, v) :: resolved)
          end
      end
  end.

(** [LookupBase.set_options(var_options=, direct=)] resolves the options
    the plugin declares and stores them on the plugin object; a refused
    option raises.  The plugin never reads an option back ([run] takes
    every setting from [variables]), so the stored values are dropped
    here. *)
Definition set_options {cfg : ConfigManager} (defs : list option_def)
    (var_options direct : gmap string pyval) : M unit :=
  match get_plugin_options defs var_options direct with
  | inl e => raise e
  | inr _ => ret tt
  end.

End Ansible.
Export Ansible.

(** ** [src/pleasant.py]: class [LookupModule] *)

Module Pleasant.

(** The [options] of the module's [DOCUMENTATION]. *)
Definition options : list option_def :=
  [ OptionDef "_terms" None None [] [] [];
    OptionDef "pleasant_verify" None (Some (PBool true))
      ["pleasant_lookup_ca_path"] ["PLEASANT_LOOKUP_CA_PATH"]
      [("pleasant_lookup", "ca_path")];
    OptionDef "pleasant_username" (Some "string") None [] [] [];
    OptionDef "pleasant_password" (Some "str") None [] [] [];
    OptionDef "headers" (Some "dictionary")
      (Some (PDict [("Content-Type", PStr "application/json")])) [] [] [];
    OptionDef "force" (Some "boolean") (Some (PBool false)) [] [] [];
    OptionDef "timeout" (Some "float") (Some (PInt 5))
      ["pleasant_lookup_timeout"] ["PLEASANT_LOOKUP_TIMEOUT"]
      [("pleasant_lookup", "timeout")] ].

Section LookupModule.
Context {rt : PyRuntime} {cfg : ConfigManager} (server : oracle).

Definition get_token
    (pleasant_host pleasant_username pleasant_password pleasant_verify pleasant_timeout : pyval)
    : M pyval :=
  let verify := pleasant_verify in
  let timeout := pleasant_timeout in
  let timeout := if is_None timeout then PInt 5 else timeout in
  response <-
    try_except
      (url <- add_str_r pleasant_host "/oauth2/token" ;;
       let payload := "grant_type=password&username=" +:+ py_str pleasant_username
                      +:+ "&password=" +:+ py_str pleasant_password in
       let headers := [("Content-Type", "application/x-www-form-urlencoded")] in
       response <- Requests.request server
                     (Request "POST" url headers (Some payload) verify timeout) ;;
       (if negb (status_code response =? 200)%Z then
          display ("Authentication failed getting an access token from Pleasant "
                   +:+ pretty (status_code response) +:+ " " +:+ reason response) ;;;
          Requests.raise_for_status response
        else ret tt) ;;;
       ret response)
      [ (ConnectionError, fun e =>
           raise (Exn AnsibleError ("Can't connect to host to get token " +:+ to_native e)));
        (HTTPError, fun e =>
           raise (Exn AnsibleError ("An HTTP Error occured " +:+ to_native e)));
        (URLRequired, fun e =>
           raise (Exn AnsibleError ("Invalid url " +:+ to_native e)));
        (ConnectTimeout, fun e =>
           raise (Exn AnsibleError
             ("The request timed out while trying to connect to the remote server. Retry later. "
              +:+ to_native e)));
        (Timeout, fun e =>
           raise (Exn AnsibleError ("The request timed out " +:+ to_native e))) ] ;;
  (* [pleasant_at] is bound by the assignment in the [try] body only; the
     handler runs when [response.json()] raised, before any binding. *)
  pleasant_at <-
    try_except
      (pleasant_at <- Requests.json response ;;
       ret pleasant_at)
      [ (Exception, fun e =>
           pleasant_at <- read_local "pleasant_at" None ;;
           raise (Exn AnsibleError ("can't decode access token : " +:+ py_str pleasant_at
                                    +:+ " , " +:+ to_native e))) ] ;;
  ret pleasant_at.

Definition get_pps_entry (pleasant_host guid verify timeout pleasant_at : pyval) : M response :=
  let url := py_str pleasant_host +:+ "/api/v5/rest/entries/" +:+ py_str guid in
  authorization <- add_str_l "Bearer " pleasant_at ;;
  let headers := [("Content-type", "application/json"); ("Authorization", authorization)] in
  let timeout := if negb (py_truthy timeout) then PInt 5 else timeout in
  response <-
    try_except
      (response <- Requests.request server (Request "GET" url headers None verify timeout) ;;
       (if negb (status_code response =? 200)%Z then
          display ("Getting crredential failed: (" +:+ pretty (status_code response)
                   +:+ " " +:+ reason response +:+ ")") ;;;
          Requests.raise_for_status response
        else ret tt) ;;;
       ret response)
      [ (ConnectionError, fun e =>
           raise (Exn AnsibleError ("Can't connect to host to get token " +:+ to_native e)));
        (HTTPError, fun e =>
           raise (Exn AnsibleError ("An HTTP Error occured " +:+ to_native e)));
        (URLRequired, fun e =>
           raise (Exn AnsibleError ("Invalid url " +:+ to_native e)));
        (ConnectTimeout, fun e =>
           raise (Exn AnsibleError
             ("The request timed out while trying to connect to the remote server. Retry later. "
              +:+ to_native e)));
        (Timeout, fun e =>
           raise (Exn AnsibleError ("The request timed out " +:+ to_native e)));
        (Exception, fun e =>
           raise (Exn AnsibleError ("Failed to execute get_pps_entry: error " +:+ to_native e))) ] ;;
  ret response.

Definition get_password (pleasant_host pleasant_id verify timeout pleasant_at : pyval)
    : M response :=
  let url := py_str pleasant_host +:+ "/api/v5/rest/entries/" +:+ py_str pleasant_id
             +:+ "/password" in
  authorization <- add_str_l "Bearer " pleasant_at ;;
  let headers := [("Content-type", "application/json"); ("Authorization", authorization)] in
  let timeout := if negb (py_truthy timeout) then PInt 5 else timeout in
  response <-
    try_except
      (response <- Requests.request server (Request "GET" url headers None verify timeout) ;;
       (if negb (status_code response =? 200)%Z then
          Requests.raise_for_status response
        else ret tt) ;;;
       ret response)
      [ (ConnectionError, fun e =>
           raise (Exn AnsibleError ("Can't connect to host to get token " +:+ to_native e)));
        (HTTPError, fun e =>
           raise (Exn AnsibleError ("An HTTP Error occured " +:+ to_native e)));
        (URLRequired, fun e =>
           raise (Exn AnsibleError ("Invalid url " +:+ to_native e)));
        (ConnectTimeout, fun e =>
           raise (Exn AnsibleError
             ("The request timed out while trying to connect to the remote server. Retry later. "
              +:+ to_native e)));
        (Timeout, fun e =>
           raise (Exn AnsibleError ("The request timed out " +:+ to_native e)));
        (Exception, fun e =>
           raise (Exn AnsibleError ("Failed to get password " +:+ py_str pleasant_id
                                    +:+ " - error " +:+ to_native e))) ] ;;
  ret response.

Definition run (terms : list pyval) (variables kwargs : gmap string pyval)
    : M (list pyval) :=
  set_options options variables kwargs ;;;
  let ret0 : list pyval := [] in
  let pps_host := dict_get_or_None variables "pleasant_host" in
  let username := dict_get_or_None variables "pleasant_username" in
  let password := dict_get_or_None variables "pleasant_password" in
  let verify := dict_get_or_None variables "pleasant_verify" in
  let timeout := dict_get_or_None variables "pleasant_timeout" in
  guid <- item0 terms ;;
  at_ <- get_token pps_host username password verify timeout ;;
  ret1 <-
    try_except
      (access_token <- py_get at_ "access_token" (PStr "default") ;;
       retval <- get_pps_entry pps_host guid verify timeout access_token ;;
       entry <- Requests.json retval ;;
       retval <- get_password pps_host guid verify timeout access_token ;;
       passwd <- Requests.json retval ;;
       idusername <- py_get entry "Username" PNone ;;
       ret (ret0 ++ [PDict [("username", PStr (to_text idusername));
                            ("password", PStr (to_text passwd))]])%list)
      [ (ConnectionError, fun e =>
           raise (Exn AnsibleError ("Can't connect to host to get token " +:+ to_native e)));
        (HTTPError, fun e =>
           raise (Exn AnsibleError ("An HTTP Error occured " +:+ to_native e)));
        (URLRequired, fun e =>
           raise (Exn AnsibleError ("Invalid url: " +:+ to_native e)));
        (ConnectTimeout, fun e =>
           raise (Exn AnsibleError
             ("The request timed out while trying to connect to the remote server. Retry later: "
              +:+ to_native e)));
        (Timeout, fun e =>
           raise (Exn AnsibleError ("The request timed out: " +:+ to_native e)));
        (Exception, fun e =>
           raise (Exn AnsibleError ("No entry found " +:+ to_native e))) ] ;;
  ret ret1.

End LookupModule.

End Pleasant.

(** ** [src/plugins/lookup/pleasant.py]: class [LookupModule] *)

Module PluginsLookupPleasant.

(** The module's [DOCUMENTATION] declares no option. *)
Definition options : list option_def := [].

Section LookupModule.
Context {rt : PyRuntime} {cfg : ConfigManager} (server : oracle).

Definition get_token
    (pleasant_host pleasant_username pleasant_password pleasant_verify pleasant_timeout : pyval)
    : M pyval :=
  let verify := pleasant_verify in
  let timeout := pleasant_timeout in
  let timeout := if is_None timeout then PInt 5 else timeout in
  response <-
    try_except
      (url <- add_str_r pleasant_host "/oauth2/token" ;;
       let payload := "grant_type=password&username=" +:+ py_str pleasant_username
                      +:+ "&password=" +:+ py_str pleasant_password in
       let headers := [("Content-Type", "application/x-www-form-urlencoded")] in
       response <- Requests.request server
                     (Request "POST" url headers (Some payload) verify timeout) ;;
       (if negb (status_code response =? 200)%Z then
          display ("Authentication failed getting an access token from Pleasant "
                   +:+ pretty (status_code response) +:+ " " +:+ reason response) ;;;
          Requests.raise_for_status response
        else ret tt) ;;;
       ret response)
      [ (ConnectionError, fun e =>
           raise (Exn AnsibleError ("Can't connect to host to get token " +:+ to_native e)));
        (HTTPError, fun e =>
           raise (Exn AnsibleError ("An HTTP Error occured " +:+ to_native e)));
        (URLRequired, fun e =>
           raise (Exn AnsibleError ("Invalid url " +:+ to_native e)));
        (ConnectTimeout, fun e =>
           raise (Exn AnsibleError
             ("The request timed out while trying to connect to the remote server. Retry later. "
              +:+ to_native e)));
        (Timeout, fun e =>
           raise (Exn AnsibleError ("The request timed out " +:+ to_native e))) ] ;;
  (* [pleasant_at] is bound by the assignment in the [try] body only; the
     handler runs when [response.json()] raised, before any binding. *)
  pleasant_at <-
    try_except
      (pleasant_at <- Requests.json response ;;
       ret pleasant_at)
      [ (Exception, fun e =>
           pleasant_at <- read_local "pleasant_at" None ;;
           raise (Exn AnsibleError ("can't decode access token : " +:+ py_str pleasant_at
                                    +:+ " , " +:+ to_native e))) ] ;;
  ret pleasant_at.

Definition get_pps_entry (pleasant_host guid verify timeout pleasant_at : pyval) : M response :=
  let url := py_str pleasant_host +:+ "/api/v5/rest/entries/" +:+ py_str guid in
  authorization <- add_str_l "Bearer " pleasant_at ;;
  let headers := [("Content-type", "application/json"); ("Authorization", authorization)] in
  let timeout := if negb (py_truthy timeout) then PInt 5 else timeout in
  response <-
    try_except
      (response <- Requests.request server (Request "GET" url headers None verify timeout) ;;
       (if negb (status_code response =? 200)%Z then
          display ("Getting crredential failed: (" +:+ pretty (status_code response)
                   +:+ " " +:+ reason response +:+ ")") ;;;
          Requests.raise_for_status response
        else ret tt) ;;;
       ret response)
      [ (ConnectionError, fun e =>
           raise (Exn AnsibleError ("Can't connect to host to get token " +:+ to_native e)));
        (HTTPError, fun e =>
           raise (Exn AnsibleError ("An HTTP Error occured " +:+ to_native e)));
        (URLRequired, fun e =>
           raise (Exn AnsibleError ("Invalid url " +:+ to_native e)));
        (ConnectTimeout, fun e =>
           raise (Exn AnsibleError
             ("The request timed out while trying to connect to the remote server. Retry later. "
              +:+ to_native e)));
        (Timeout, fun e =>
           raise (Exn AnsibleError ("The request timed out " +:+ to_native e)));
        (Exception, fun e =>
           raise (Exn AnsibleError ("Failed to execute get_pps_entry: error " +:+ to_native e))) ] ;;
  ret response.

Definition get_password (pleasant_host pleasant_id verify timeout pleasant_at : pyval)
    : M response :=
  let url := py_str pleasant_host +:+ "/api/v5/rest/entries/" +:+ py_str pleasant_id
             +:+ "/password" in
  authorization <- add_str_l "Bearer " pleasant_at ;;
  let headers := [("Content-type", "application/json"); ("Authorization", authorization)] in
  let timeout := if negb (py_truthy timeout) then PInt 5 else timeout in
  response <-
    try_except
      (response <- Requests.request server (Request "GET" url headers None verify timeout) ;;
       (if negb (status_code response =? 200)%Z then
          Requests.raise_for_status response
        else ret tt) ;;;
       ret response)
      [ (ConnectionError, fun e =>
           raise (Exn AnsibleError ("Can't connect to host to get token " +:+ to_native e)));
        (HTTPError, fun e =>
           raise (Exn AnsibleError ("An HTTP Error occured " +:+ to_native e)));
        (URLRequired, fun e =>
           raise (Exn AnsibleError ("Invalid url " +:+ to_native e)));
        (ConnectTimeout, fun e =>
           raise (Exn AnsibleError
             ("The request timed out while trying to connect to the remote server. Retry later. "
              +:+ to_native e)));
        (Timeout, fun e =>
           raise (Exn AnsibleError ("The request timed out " +:+ to_native e)));
        (Exception, fun e =>
           raise (Exn AnsibleError ("Failed to get password " +:+ py_str pleasant_id
                                    +:+ " - error " +:+ to_native e))) ] ;;
  ret response.

Definition run (terms : list pyval) (variables kwargs : gmap string pyval)
    : M (list pyval) :=
  set_options options variables kwargs ;;;
  let ret0 : list pyval := [] in
  let pps_host := dict_get_or_None variables "pleasant_host" in
  let username := dict_get_or_None variables "pleasant_username" in
  let password := dict_get_or_None variables "pleasant_password" in
  let verify := dict_get_or_None variables "pleasant_verify" in
  let timeout := dict_get_or_None variables "pleasant_timeout" in
  guid <- item0 terms ;;
  at_ <- get_token pps_host username password verify timeout ;;
  ret1 <-
    try_except
      (access_token <- py_get at_ "access_token" (PStr "default") ;;
       retval <- get_pps_entry pps_host guid verify timeout access_token ;;
       entry <- Requests.json retval ;;
       retval <- get_password pps_host guid verify timeout access_token ;;
       passwd <- Requests.json retval ;;
       idusername <- py_get entry "Username" PNone ;;
       ret (ret0 ++ [PDict [("username", PStr (to_text idusername));
                            ("password", PStr (to_text passwd))]])%list)
      [ (ConnectionError, fun e =>
           raise (Exn AnsibleError ("Can't connect to host to get token " +:+ to_native e)));
        (HTTPError, fun e =>
           raise (Exn AnsibleError ("An HTTP Error occured " +:+ to_native e)));
        (URLRequired, fun e =>
           raise (Exn AnsibleError ("Invalid url: " +:+ to_native e)));
        (ConnectTimeout, fun e =>
           raise (Exn AnsibleError
             ("The request timed out while trying to connect to the remote server. Retry later: "
              +:+ to_native e)));
        (Timeout, fun e =>
           raise (Exn AnsibleError ("The request timed out: " +:+ to_native e)));
        (Exception, fun e =>
           raise (Exn AnsibleError ("No entry found " +:+ to_native e))) ] ;;
  ret ret1.

End LookupModule.

End PluginsLookupPleasant.

(** ** The requests the plugin puts on the wire *)

Module Wire.
Section Requests.
Context {rt : PyRuntime}.

(** The POST of [get_token]. *)
Definition token_request (host : string) (username password verify timeout : pyval) : request :=
  Request "POST" (host +:+ "/oauth2/token")
    [("Content-Type", "application/x-www-form-urlencoded")]
    (Some ("grant_type=password&username=" +:+ py_str username
           +:+ "&password=" +:+ py_str password))
    verify (if is_None timeout then PInt 5 else timeout).

(** The headers of both GETs. *)
Definition bearer_headers (token : string) : list (string * string) :=
  [("Content-type", "application/json"); ("Authorization", "Bearer " +:+ token)].

(** The GET of [get_pps_entry]. *)
Definition entry_request (host guid verify timeout : pyval) (token : string) : request :=
  Request "GET" (py_str host +:+ "/api/v5/rest/entries/" +:+ py_str guid)
    (bearer_headers token) None
    verify (if negb (py_truthy timeout) then PInt 5 else timeout).

(** The GET of [get_password]. *)
Definition password_request (host guid verify timeout : pyval) (token : string) : request :=
  Request "GET" (py_str host +:+ "/api/v5/rest/entries/" +:+ py_str guid +:+ "/password")
    (bearer_headers token) None
    verify (if negb (py_truthy timeout) then PInt 5 else timeout).
End Requests.
End Wire.
Export Wire.

(** ** Reading a trace: what each answer lets the plugin go on with *)

Module Trace.

(** The response a method hands back: the call returned, and
    [raise_for_status] had nothing to raise. *)
Definition reply_of (o : outcome) : option response :=
  match o with
  | Responded r => if Requests.is_error_status r then None else Some r
  | Raised _ => None
  end.

(** ... and its body decodes. *)
Definition document_of (o : outcome) : option pyval :=
  match reply_of o with
  | Some r => match content r with Json j => Some j | NotJson _ => None end
  | None => None
  end.

(** The token [run] takes from the token document: the [access_token]
    of an object, [default] when the object has none; only a [str] can be
    appended to [Bearer ]. *)
Definition bearer_of (document : pyval) : option string :=
  match document with
  | PDict d =>
      match default (PStr "default") (dict_get d "access_token") with
      | PStr token => Some token
      | _ => None
      end
  | _ => None
  end.

(** The token the run goes on with after the answer [o] to the POST. *)
Definition token_of (o : outcome) : option string :=
  match document_of o with
  | Some document => bearer_of document
  | None => None
  end.

End Trace.
Export Trace.

(** ** Concrete runtimes and servers, for evaluating the plugin *)

Module Fixtures.

Definition dquote : string := String (Ascii.ascii_of_nat 34) EmptyString.

(** The messages of CPython 3.11 and later.  [repr_str] quotes with
    single quotes and escapes nothing, which is [repr] on the strings used
    below (printable, without quote or backslash). *)
Definition cpython : PyRuntime := {|
  repr_str s := "'" +:+ s +:+ "'";
  unbound_local_msg name :=
    "cannot access local variable '" +:+ name
    +:+ "' where it is not associated with a value";
  add_error_msg a b :=
    match a with
    | PStr _ | PList _ =>
        "can only concatenate " +:+ type_name a +:+ " (not " +:+ dquote +:+ type_name b
        +:+ dquote +:+ ") to " +:+ type_name a
    | _ =>
        "unsupported operand type(s) for +: '" +:+ type_name a +:+ "' and '"
        +:+ type_name b +:+ "'"
    end
|}.

(** A configuration manager for the values used below, with an empty
    environment and no ini file: a keyword argument comes first, then the
    first variable of the option that is set, then the default; a [float]
    option refuses a string that is not a number and a container, a
    [dictionary] option refuses what is no [dict]. *)
Definition is_number_text (s : string) : bool :=
  negb (String.eqb s EmptyString)
  && forallb (fun a => let n := Ascii.nat_of_ascii a in
                       (Nat.leb 48 n && Nat.leb n 57) || Nat.eqb n 46)
             (String.list_ascii_of_string s).

Definition resolve (d : option_def) (variables direct : gmap string pyval) : option pyval :=
  match direct !! opt_name d with
  | Some v => Some v
  | None =>
      match head (omap (fun name => variables !! name) (opt_vars d)) with
      | Some v => Some v
      | None => opt_default d
      end
  end.

Definition invalid_type (d : option_def) (v : pyval) : exn :=
  Exn AnsibleOptionsError
      ("Invalid type for configuration option " +:+ opt_name d +:+ ": "
       +:+ py_repr (rt:=cpython) v).

Definition ensure_type (d : option_def) (v : pyval) : exn + pyval :=
  match opt_type d with
  | Some ty =>
      if String.eqb ty "float" then
        match v with
        | PStr s => if is_number_text s then inr v else inl (invalid_type d v)
        | PList _ | PDict _ => inl (invalid_type d v)
        | _ => inr v
        end
      else if String.eqb ty "dictionary" then
        match v with
        | PDict _ | PNone => inr v
        | _ => inl (invalid_type d v)
        end
      else inr v
  | None => inr v
  end.

Definition stock_config : ConfigManager := {|
  get_config_value d variables direct :=
    match resolve d variables direct with
    | Some v => ensure_type d v
    | None => inr PNone
    end
|}.

(** A server that gives its answers in order, whatever is asked; once they
    are used up the connection fails. *)
Definition scripted (answers : list outcome) : oracle :=
  fun history _ =>
    default (Raised (Exn ConnectionError "connection refused"))
            (answers !! length history).

Definition variables : gmap string pyval :=
  <["pleasant_host" := PStr "https://vault.example.com:10001"]>
  (<["pleasant_username" := PStr "svc"]>
  (<["pleasant_password" := PStr "hunter2"]>
  (<["pleasant_verify" := PStr "/etc/ssl/certs/ca-bundle.crt"]>
  (<["pleasant_timeout" := PInt 2]> ∅)))).

Definition guid : pyval := PStr "0a1b2c3d".

Definition token_url : string := "https://vault.example.com:10001/oauth2/token".
Definition entry_url : string :=
  "https://vault.example.com:10001/api/v5/rest/entries/0a1b2c3d".
Definition password_url : string :=
  "https://vault.example.com:10001/api/v5/rest/entries/0a1b2c3d/password".

Definition token_reply : response :=
  Response 200 "OK" token_url (Json (PDict [("access_token", PStr "T")])).
Definition entry_reply : response :=
  Response 200 "OK" entry_url (Json (PDict [("Username", PStr "bob")])).
Definition password_reply : response :=
  Response 200 "OK" password_url (Json (PStr "s3cret")).

(** The three answers of the round-trip fixture. *)
Definition roundtrip : oracle :=
  scripted [Responded token_reply; Responded entry_reply; Responded password_reply].

(** The entry exists, its secret does not. *)
Definition password_not_found : response :=
  Response 404 "Not Found" password_url (NotJson "Expecting value").

Definition secret_missing : oracle :=
  scripted [Responded token_reply; Responded entry_reply; Responded password_not_found].

(** The token endpoint answers 201 instead of 200. *)
Definition token_created : oracle :=
  scripted [ Responded (Response 201 "Created" token_url
                          (Json (PDict [("access_token", PStr "T")])));
             Responded entry_reply; Responded password_reply ].

(** The token endpoint answers 200 with a body that is not JSON. *)
Definition token_not_json : oracle :=
  scripted [ Responded (Response 200 "OK" token_url
                          (NotJson "Expecting value: line 1 column 1 (char 0)")) ].

(** The token document has no [access_token]. *)
Definition token_reply_without_token : response :=
  Response 200 "OK" token_url (Json (PDict [("token_type", PStr "bearer")])).

(** ... and the server then rejects the placeholder. *)
Definition entry_unauthorized : response :=
  Response 401 "Unauthorized" entry_url (NotJson "Expecting value").

Definition placeholder_rejected : oracle :=
  scripted [Responded token_reply_without_token; Responded entry_unauthorized].

(** ... or accepts it. *)
Definition placeholder_accepted : oracle :=
  scripted [ Responded token_reply_without_token;
             Responded entry_reply; Responded password_reply ].

(** The entry document has no [Username]. *)
Definition entry_reply_without_username : response :=
  Response 200 "OK" entry_url (Json (PDict [("Name", PStr "build account")])).

Definition username_missing : oracle :=
  scripted [ Responded token_reply; Responded entry_reply_without_username;
             Responded password_reply ].

(** The connection to the token endpoint times out. *)
Definition connect_timeout (msg : string) : oracle :=
  scripted [Raised (Exn ConnectTimeout msg)].

End Fixtures.

(** ** What a computation may raise, and whether it displays *)

Module Footprint.

(** [m] raises only exceptions whose class satisfies [S]. *)
Definition raises_only {A} (S : exc_class -> Prop) (m : M A) : Prop :=
  forall st e st', m st = (Raise e, st') -> S (exn_class e).

(** [m] gives nothing to [display.display]. *)
Definition silent {A} (m : M A) : Prop :=
  forall st, shown (snd (m st)) = shown st.

(** A handler that raises an [AnsibleError] and does nothing else. *)
Definition raises_AnsibleError {A} (h : exn -> M A) : Prop :=
  forall e st, exists msg, h e st = (Raise (Exn AnsibleError msg), st).

(** The classes none of the clauses for [ConnectionError], [HTTPError],
    [URLRequired], [ConnectTimeout] and [Timeout] takes. *)
Definition unlisted (c : exc_class) : bool :=
  negb (issubclass c ConnectionError || issubclass c HTTPError
        || issubclass c URLRequired || issubclass c ConnectTimeout
        || issubclass c Timeout).

End Footprint.
Export Footprint.

(** ** Further servers and settings *)

Module Scenarios.
Import Fixtures.

(** The documented variable of the [timeout] option, with a value that is
    no number. *)
Definition variables_bad_timeout : gmap string pyval :=
  <["pleasant_lookup_timeout" := PStr "abc"]> variables.

Definition timeout_refused : exn :=
  Exn AnsibleOptionsError "Invalid type for configuration option timeout: 'abc'".

(** No [pleasant_host] among the variables. *)
Definition variables_without_host : gmap string pyval :=
  <["pleasant_username" := PStr "svc"]> (<["pleasant_password" := PStr "hunter2"]> ∅).

(** A host without a scheme, which [requests] refuses. *)
Definition variables_bare_host : gmap string pyval :=
  <["pleasant_host" := PStr "vault.example.com"]> variables.

Definition missing_schema : exn :=
  Exn MissingSchema "Invalid URL 'vault.example.com/oauth2/token': No scheme supplied.".

Definition schema_refused : oracle := scripted [Raised missing_schema].

(** The token endpoint rejects the credentials. *)
Definition token_unauthorized : response :=
  Response 401 "Unauthorized" token_url (NotJson "Expecting value").

Definition credentials_rejected : oracle := scripted [Responded token_unauthorized].

(** The token document is a JSON array. *)
Definition token_reply_array : response :=
  Response 200 "OK" token_url (Json (PList [PStr "T"])).

Definition token_is_array : oracle := scripted [Responded token_reply_array].

(** The token document carries [access_token: null]. *)
Definition token_reply_null : response :=
  Response 200 "OK" token_url (Json (PDict [("access_token", PNone)])).

Definition token_is_null : oracle := scripted [Responded token_reply_null].

(** The entry document is a JSON array. *)
Definition entry_reply_array : response :=
  Response 200 "OK" entry_url (Json (PList [PDict [("Username", PStr "bob")]])).

Definition entry_is_array : oracle :=
  scripted [Responded token_reply; Responded entry_reply_array; Responded password_reply].

(** The entry does not exist. *)
Definition entry_not_found : response :=
  Response 404 "Not Found" entry_url (NotJson "Expecting value").

Definition entry_missing : oracle :=
  scripted [Responded token_reply; Responded entry_not_found].

(** The connection drops after the token was given. *)
Definition connection_reset : exn := Exn ConnectionError "Connection reset by peer".

Definition entry_unreachable : oracle :=
  scripted [Responded token_reply; Raised connection_reset].

(** The password endpoint answers with a server error. *)
Definition password_unavailable : oracle :=
  scripted [ Responded token_reply; Responded entry_reply;
             Responded (Response 503 "Service Unavailable" password_url
                          (NotJson "Expecting value")) ].

End Scenarios.

(** * Properties *)

(** ** The exception hierarchy *)

Lemma every_class_is_an_Exception c : issubclass c Exception = true.
Proof. by destruct c. Qed.

(** An exception the [ConnectTimeout] clause would take is taken by a
    [ConnectionError] clause written above it. *)
Lemma connect_timeout_clause_is_dead c :
  issubclass c ConnectTimeout = true -> issubclass c ConnectionError = true.
Proof. destruct c; vm_compute; congruence. Qed.

(** ** The monad *)

Section Properties.
Context {rt : PyRuntime} {cfg : ConfigManager} (server : oracle).
Import Pleasant.

(** Clauses that only raise end in a raise and leave the state alone. *)
Lemma handle_raises {A} (clauses : list (handler A)) :
  Forall (fun c => raiser (snd c)) clauses ->
  forall e st, exists e', handle clauses e st = (Raise e', st).
Proof.
  induction 1 as [|[c h] rest Hh _ IH]; intros e st; simpl.
  - eexists; reflexivity.
  - destruct (issubclass (exn_class e) c); [apply Hh | apply IH].
Qed.

(** A sequence either runs its first part to a value and goes on, or
    stops at the exception the first part raised. *)
Lemma bind_inv {A B} (m : M A) (k : A -> M B) st res st' :
  bind m k st = (res, st') ->
  (exists a s, m st = (Return a, s) /\ k a s = (res, st'))
  \/ (exists e, m st = (Raise e, st') /\ res = Raise e).
Proof.
  unfold bind. destruct (m st) as [[a|e] s]; intros H.
  - left; eauto.
  - right; simplify_eq; eauto.
Qed.

(** [set_options] returns or raises, and touches neither the trace nor
    the display. *)
Lemma set_options_inv defs variables direct st res st' :
  set_options defs variables direct st = (res, st') ->
  st' = st /\ (res = Return tt \/ exists e, res = Raise e).
Proof.
  unfold set_options, ret, raise.
  destruct (get_plugin_options defs variables direct); intros H; simplify_eq; eauto.
Qed.

Lemma set_options_accepted defs variables direct resolved :
  get_plugin_options defs variables direct = inr resolved ->
  set_options defs variables direct = ret tt.
Proof. unfold set_options. by intros ->. Qed.

Lemma handle_cons {A} c (h : exn -> M A) rest e :
  handle ((c, h) :: rest) e = if issubclass (exn_class e) c then h e else handle rest e.
Proof. reflexivity. Qed.

Local Arguments pretty : simpl never.
Local Arguments String.append : simpl never.
Local Arguments handle : simpl never.

Ltac caught H := repeat (rewrite handle_cons in H; simpl in H).

Ltac raisers := repeat constructor; intros ? ?; eexists; reflexivity.

Ltac handled H :=
  match type of H with
  | context [handle ?cl ?e ?s1] =>
      let e' := fresh "e'" in
      let He' := fresh "He'" in
      destruct (handle_raises cl ltac:(raisers) e s1) as [e' He'];
      rewrite He' in H
  end.

(** ** The three HTTP methods, read off the trace *)

Lemma status_200_not_error r :
  (status_code r =? 200)%Z = true -> Requests.is_error_status r = false.
Proof.
  intros H%Z.eqb_eq. unfold Requests.is_error_status. rewrite H. reflexivity.
Qed.

(** [get_token] raises before any call when the host is not a [str];
    otherwise it makes the POST, and returns the decoded body of an answer
    that [raise_for_status] lets through. *)
Lemma get_token_inv host u p v t st res st' :
  get_token server host u p v t st = (res, st') ->
  (log st' = log st /\ exists e, res = Raise e)
  \/ exists h, host = PStr h /\
       let q := token_request h u p v t in
       let o := server (log st) q in
       log st' = (log st ++ [(q, o)])%list /\
       match document_of o with
       | Some j => res = Return j
       | None => exists e, res = Raise e
       end.
Proof.
  unfold get_token, bind, try_except. intros H.
  destruct host; simpl in H; unfold raise in H; caught H;
    try (left; simplify_eq; eauto; done).
  right. exists s. split; [done|]. unfold bind, Requests.request in H.
  fold (token_request s u p v t) in H.
  cbv zeta. unfold document_of, reply_of.
  destruct (server (log st) (token_request s u p v t)) as [r|e].
  - destruct (status_code r =? 200)%Z eqn:Hs; simpl in H.
    + rewrite (status_200_not_error _ Hs). unfold Requests.json in H.
      destruct (content r); simpl in H; unfold ret, raise in H; simplify_eq; eauto.
    + unfold Requests.raise_for_status in H.
      destruct (Requests.is_error_status r); simpl in H; unfold ret, raise in H.
      * caught H. simplify_eq; eauto.
      * unfold Requests.json in H.
        destruct (content r); simpl in H; unfold ret, raise in H; simplify_eq; eauto.
  - handled H. simplify_eq. eauto.
Qed.

(** [get_pps_entry] raises before any call when the token is not a
    [str]; otherwise it makes the GET and returns the answer that
    [raise_for_status] lets through. *)
Lemma get_pps_entry_inv host id v t tk st res st' :
  get_pps_entry server host id v t tk st = (res, st') ->
  (log st' = log st /\ (exists e, res = Raise e) /\ forall tok, tk <> PStr tok)
  \/ exists tok, tk = PStr tok /\
       let q := entry_request host id v t tok in
       let o := server (log st) q in
       log st' = (log st ++ [(q, o)])%list /\
       match reply_of o with
       | Some r => res = Return r
       | None => exists e, res = Raise e
       end.
Proof.
  unfold get_pps_entry, bind. intros H.
  destruct tk; simpl in H; try (left; simplify_eq; split_and!; eauto; done).
  right. exists s. split; [done|]. unfold try_except, bind, Requests.request in H.
  fold (bearer_headers s) in H. fold (entry_request host id v t s) in H.
  cbv zeta. unfold reply_of.
  destruct (server (log st) (entry_request host id v t s)) as [r|e].
  - destruct (status_code r =? 200)%Z eqn:Hs; simpl in H.
    + rewrite (status_200_not_error _ Hs). unfold ret in H. by simplify_eq.
    + unfold Requests.raise_for_status in H.
      destruct (Requests.is_error_status r); simpl in H; unfold ret, raise in H;
        caught H; simplify_eq; eauto.
  - handled H. simplify_eq. eauto.
Qed.

(** [get_password] likewise; an error status comes back as the
    [AnsibleError] of its [HTTPError] clause. *)
Lemma get_password_inv host id v t tk st res st' :
  get_password server host id v t tk st = (res, st') ->
  (log st' = log st /\ (exists e, res = Raise e) /\ forall tok, tk <> PStr tok)
  \/ exists tok, tk = PStr tok /\
       let q := password_request host id v t tok in
       let o := server (log st) q in
       log st' = (log st ++ [(q, o)])%list /\
       match o with
       | Raised e => exists e', res = Raise e'
       | Responded r =>
           if Requests.is_error_status r
           then res = Raise (Exn AnsibleError
                               ("An HTTP Error occured " +:+ Requests.http_error_msg r))
           else res = Return r
       end.
Proof.
  unfold get_password, bind. intros H.
  destruct tk; simpl in H; try (left; simplify_eq; split_and!; eauto; done).
  right. exists s. split; [done|]. unfold try_except, bind, Requests.request in H.
  fold (bearer_headers s) in H. fold (password_request host id v t s) in H.
  cbv zeta. destruct (server (log st) (password_request host id v t s)) as [r|e].
  - destruct (status_code r =? 200)%Z eqn:Hs; simpl in H.
    + rewrite (status_200_not_error _ Hs). unfold ret in H. by simplify_eq.
    + unfold Requests.raise_for_status in H.
      destruct (Requests.is_error_status r); simpl in H; unfold ret, raise in H;
        caught H; by simplify_eq.
  - handled H. simplify_eq. eauto.
Qed.


(** ** [run], read off the trace

    Every run from the initial state follows one branch of this tree:
    nothing is sent; or the POST is sent and its answer gives no usable
    token; or the entry GET is sent and its answer gives no document; or
    the password GET is sent too, and its answer decides the result. *)
Lemma run_inv terms variables kwargs res st' :
  run server terms variables kwargs initial = (res, st') ->
  let host := dict_get_or_None variables "pleasant_host" in
  let username := dict_get_or_None variables "pleasant_username" in
  let password := dict_get_or_None variables "pleasant_password" in
  let verify := dict_get_or_None variables "pleasant_verify" in
  let timeout := dict_get_or_None variables "pleasant_timeout" in
  (log st' = [] /\ exists e, res = Raise e)
  \/ exists h guid more, host = PStr h /\ terms = guid :: more /\
     let q0 := token_request h username password verify timeout in
     let o0 := server [] q0 in
     match token_of o0 with
     | None => log st' = [(q0, o0)] /\ exists e, res = Raise e
     | Some token =>
         let q1 := entry_request host guid verify timeout token in
         let o1 := server [(q0, o0)] q1 in
         match document_of o1 with
         | None => log st' = [(q0, o0); (q1, o1)] /\ exists e, res = Raise e
         | Some entry =>
             let q2 := password_request host guid verify timeout token in
             let o2 := server [(q0, o0); (q1, o1)] q2 in
             log st' = [(q0, o0); (q1, o1); (q2, o2)] /\
             match o2 with
             | Raised _ => exists e, res = Raise e
             | Responded r2 =>
                 if Requests.is_error_status r2
                 then res = Raise (Exn AnsibleError
                                     ("No entry found An HTTP Error occured "
                                      +:+ Requests.http_error_msg r2))
                 else match content r2, entry with
                      | Json secret, PDict d =>
                          res = Return
                                  [PDict [("username",
                                           PStr (to_text (default PNone (dict_get d "Username"))));
                                          ("password", PStr (to_text secret))]]
                      | _, _ => exists e, res = Raise e
                      end
             end
         end
     end.
Proof.
  intros H host username password verify timeout.
  unfold run in H.
  apply bind_inv in H as [(? & s0 & Hso & Hk1)|(e & He & ->)];
    [apply set_options_inv in Hso as [-> _]
    |apply set_options_inv in He as [-> _]; left; eauto].
  apply bind_inv in Hk1 as [(guid & s0' & Hguid & Hk2)|(e & He & ->)];
    [|destruct terms; unfold item0, ret, raise in He; simplify_eq; left; eauto].
  destruct terms as [|guid' more]; unfold item0, ret, raise in Hguid; simplify_eq.
  apply bind_inv in Hk2 as [(tk & s1 & Htk & Hk3)|(e & Htk & ->)];
    (apply get_token_inv in Htk as [[Hlog Hres]|(h & Hh & Hlog & Hres)];
     [try (left; rewrite Hlog; eauto; done)|]).
  { destruct Hres as [? [=]]. }
  2:{ right. exists h, guid, more. split_and!; [done..|].
      fold host username password verify timeout in Hlog, Hres. cbv zeta in *.
      unfold token_of. simpl in Hlog.
      destruct (document_of _); [done|]. eauto. }
  fold host username password verify timeout in Hlog, Hres, Hk3. cbv zeta in *.
  simpl in Hlog, Hres.
  right. exists h, guid, more. split_and!; [done..|].
  set (q0 := token_request h username password verify timeout) in *.
  set (o0 := server [] q0) in *.
  unfold token_of. destruct (document_of o0) as [j|]; [|by destruct Hres].
  injection Hres as ->.
  unfold bind at 1 in Hk3. unfold try_except in Hk3.
  match type of Hk3 with
  | context [match ?b s1 with _ => _ end] => destruct (b s1) as [rB sB] eqn:HB
  end.
  apply bind_inv in HB as [(tok & sa & Hget & HB1)|(e & Hget & ->)];
    unfold py_get in Hget; destruct j; unfold ret, raise in Hget; simplify_eq;
    simpl bearer_of;
    try (handled Hk3; simplify_eq; rewrite Hlog; eauto; done).
  set (tok := default (PStr "default") (dict_get bindings "access_token")) in *.
  apply bind_inv in HB1 as [(r1 & sb & Hent & HB2)|(e & Hent & ->)];
    (apply get_pps_entry_inv in Hent as [(Hl & He & Hn)|(token & Htok & Hl & Hr)];
     [destruct tok; try (by destruct He); try (by edestruct Hn);
      handled Hk3; simplify_eq; rewrite Hl, Hlog; eauto; done|]).
  all: rewrite Htok; rewrite Hlog in Hl, Hr; simpl in Hl, Hr; cbv zeta in Hl, Hr.
  all: set (q1 := entry_request host guid verify timeout token) in *.
  all: set (o1 := server [(q0, o0)] q1) in *.
  all: unfold document_of.
  2:{ destruct (reply_of o1); [discriminate Hr|].
      handled Hk3. simplify_eq. eauto. }
  destruct (reply_of o1) as [r|]; [injection Hr as <-|by destruct Hr].
  apply bind_inv in HB2 as [(entry & sc & Hjs & HB3)|(e & Hjs & ->)];
    unfold Requests.json in Hjs; destruct (content r1); unfold ret, raise in Hjs;
    simplify_eq; [|handled Hk3; simplify_eq; eauto].
  set (q2 := password_request host guid verify timeout token) in *.
  apply bind_inv in HB3 as [(r2 & sd & Hpw & HB4)|(e & Hpw & ->)];
    (apply get_password_inv in Hpw as [(_ & _ & Hn)|(token' & Htok' & Hl' & Hr')];
     [by edestruct Hn|]);
    rewrite Htok in Htok'; injection Htok' as <-;
    rewrite Hl in Hl', Hr'; simpl in Hl', Hr'; cbv zeta in Hl', Hr';
    fold q2 in Hl', Hr';
    match goal with |- context [server ?l q2] => set (o2 := server l q2) in * end;
    change (server _ q2) with o2 in Hl', Hr'; clearbody o2.
  2:{ destruct o2 as [r2|e2].
      - destruct (Requests.is_error_status r2); [|discriminate Hr'].
        injection Hr' as ->. caught Hk3. unfold raise in Hk3. simplify_eq. done.
      - handled Hk3. simplify_eq. eauto. }
  destruct o2 as [r2'|e2]; [|by destruct Hr'].
  destruct (Requests.is_error_status r2'); [discriminate Hr'|].
  injection Hr' as <-.
  apply bind_inv in HB4 as [(secret & se & Hjs & HB5)|(e & Hjs & ->)];
    unfold Requests.json in Hjs; destruct (content r2); unfold ret, raise in Hjs;
    simplify_eq; [|handled Hk3; simplify_eq; destruct entry; eauto].
  apply bind_inv in HB5 as [(u & sf & Hget & HB6)|(e & Hget & ->)];
    unfold py_get in Hget; destruct entry; unfold ret, raise in *; simplify_eq;
    try (handled Hk3; simplify_eq; eauto; done).
  done.
Qed.

(** A trace of three exchanges is a run that got to the password GET. *)
Lemma run_three_exchanges terms variables kwargs res st' x0 x1 x2 :
  run server terms variables kwargs initial = (res, st') ->
  log st' = [x0; x1; x2] ->
  let host := dict_get_or_None variables "pleasant_host" in
  let verify := dict_get_or_None variables "pleasant_verify" in
  let timeout := dict_get_or_None variables "pleasant_timeout" in
  exists guid more token entry,
    terms = guid :: more /\
    token_of (snd x0) = Some token /\
    document_of (snd x1) = Some entry /\
    fst x1 = entry_request host guid verify timeout token /\
    fst x2 = password_request host guid verify timeout token /\
    match snd x2 with
    | Raised _ => exists e, res = Raise e
    | Responded r2 =>
        if Requests.is_error_status r2
        then res = Raise (Exn AnsibleError
                            ("No entry found An HTTP Error occured "
                             +:+ Requests.http_error_msg r2))
        else match content r2, entry with
             | Json secret, PDict d =>
                 res = Return
                         [PDict [("username",
                                  PStr (to_text (default PNone (dict_get d "Username"))));
                                 ("password", PStr (to_text secret))]]
             | _, _ => exists e, res = Raise e
             end
    end.
Proof.
  intros Hrun Hlog host verify timeout.
  apply run_inv in Hrun as [[Hl _]|(h & guid & more & Hh & -> & Hcase)];
    [by rewrite Hl in Hlog|].
  cbv zeta in Hcase. fold host verify timeout in Hcase.
  exists guid, more.
  destruct (token_of _) as [token|] eqn:Htoken;
    [|destruct Hcase as [Hl _]; by rewrite Hl in Hlog].
  destruct (document_of _) as [entry|] eqn:Hentry in Hcase;
    [|destruct Hcase as [Hl _]; by rewrite Hl in Hlog].
  destruct Hcase as [Hl Hres]. rewrite Hl in Hlog.
  injection Hlog as <- <- <-. simpl.
  exists token, entry. split_and!; try done.
Qed.

(** *** The token call, outcome by outcome *)

Ltac answered H :=
  lazymatch type of H with
  | server ?l ?q = _ =>
      repeat match goal with
             | |- context [server ?l' ?q'] =>
                 progress change (server l' q') with (server l q)
             end;
      rewrite H
  end.

Lemma error_status_is_not_200 r :
  Requests.is_error_status r = true -> (status_code r =? 200)%Z = false.
Proof.
  intros H. destruct (status_code r =? 200)%Z eqn:Hs; [|done].
  by rewrite (status_200_not_error _ Hs) in H.
Qed.

(** X14.  (The declared options resolve.)  A token answer with a client or server error status aborts the
    run after the POST: the failure line is displayed, the [AnsibleError]
    carries the message of [raise_for_status] under the prefix of the
    [HTTPError] clause of [get_token], and no GET is sent. *)
Lemma token_error_status_aborts h guid more variables kwargs r resolved :
  get_plugin_options options variables kwargs = inr resolved ->
  dict_get_or_None variables "pleasant_host" = PStr h ->
  let q0 := token_request h (dict_get_or_None variables "pleasant_username")
              (dict_get_or_None variables "pleasant_password")
              (dict_get_or_None variables "pleasant_verify")
              (dict_get_or_None variables "pleasant_timeout") in
  server [] q0 = Responded r ->
  Requests.is_error_status r = true ->
  run server (guid :: more) variables kwargs initial
  = (Raise (Exn AnsibleError ("An HTTP Error occured " +:+ Requests.http_error_msg r)),
     State [(q0, Responded r)]
           ["Authentication failed getting an access token from Pleasant "
            +:+ pretty (status_code r) +:+ " " +:+ reason r]).
Proof.
  intros Hopt Hh q0 Hq0 Herr.
  unfold run, set_options, get_token, item0, bind, try_except, ret, add_str_r,
    Requests.request, Requests.raise_for_status, display, raise.
  rewrite Hopt, Hh. simpl. unfold q0 in Hq0. answered Hq0. simpl.
  rewrite (error_status_is_not_200 _ Herr). simpl. rewrite Herr.
  reflexivity.
Qed.

(** A token answer with status 200 and a body that does not decode leaves
    the run with the [UnboundLocalError] of the handler that was to report
    it. *)
Lemma token_body_not_json_raises_unbound_local h guid more variables kwargs r msg resolved :
  get_plugin_options options variables kwargs = inr resolved ->
  dict_get_or_None variables "pleasant_host" = PStr h ->
  let q0 := token_request h (dict_get_or_None variables "pleasant_username")
              (dict_get_or_None variables "pleasant_password")
              (dict_get_or_None variables "pleasant_verify")
              (dict_get_or_None variables "pleasant_timeout") in
  server [] q0 = Responded r ->
  status_code r = 200 -> content r = NotJson msg ->
  run server (guid :: more) variables kwargs initial
  = (Raise (Exn UnboundLocalError (unbound_local_msg "pleasant_at")),
     State [(q0, Responded r)] []).
Proof.
  intros Hopt Hh q0 Hq0 Hs Hc.
  unfold run, set_options, get_token, item0, bind, try_except, ret, add_str_r,
    Requests.request, Requests.json, read_local, raise.
  rewrite Hopt, Hh. simpl. unfold q0 in Hq0. answered Hq0. simpl.
  rewrite Hs. simpl. rewrite Hc. reflexivity.
Qed.

(** Whatever the POST raises from the [ConnectionError] family is
    reported by the first clause of [get_token]. *)
Lemma token_connection_error_family h guid more variables kwargs e resolved :
  get_plugin_options options variables kwargs = inr resolved ->
  dict_get_or_None variables "pleasant_host" = PStr h ->
  let q0 := token_request h (dict_get_or_None variables "pleasant_username")
              (dict_get_or_None variables "pleasant_password")
              (dict_get_or_None variables "pleasant_verify")
              (dict_get_or_None variables "pleasant_timeout") in
  server [] q0 = Raised e ->
  issubclass (exn_class e) ConnectionError = true ->
  run server (guid :: more) variables kwargs initial
  = (Raise (Exn AnsibleError ("Can't connect to host to get token " +:+ exn_msg e)),
     State [(q0, Raised e)] []).
Proof.
  intros Hopt Hh q0 Hq0 Hsub.
  unfold run, set_options, get_token, item0, bind, try_except, ret, add_str_r,
    Requests.request, raise.
  rewrite Hopt, Hh. simpl. unfold q0 in Hq0. answered Hq0. simpl.
  rewrite handle_cons, Hsub. reflexivity.
Qed.

Lemma ok_status_not_error r : status_code r = 200 -> Requests.is_error_status r = false.
Proof. intros H. unfold Requests.is_error_status. by rewrite H. Qed.

(** ** The claims *)

(** C1.  When the server answers the token POST, the entry GET and the
    password GET with status 200, the entry body being a JSON object with
    a [Username] field and the password body a JSON document, [run]
    returns a list of exactly one record: its [username] is [to_text] of
    the [Username] field and its [password] is [to_text] of the password
    document.  The round-trip fixture ([{access_token: T}],
    [{Username: bob}], [s3cret]) is evaluated with the other concrete
    inputs at the end of the file. *)
Theorem lookup_returns_credential
    terms variables kwargs res st' q0 r0 q1 r1 q2 r2 entry u secret :
  run server terms variables kwargs initial = (res, st') ->
  log st' = [(q0, Responded r0); (q1, Responded r1); (q2, Responded r2)] ->
  status_code r0 = 200 -> status_code r1 = 200 -> status_code r2 = 200 ->
  content r1 = Json (PDict entry) -> dict_get entry "Username" = Some u ->
  content r2 = Json secret ->
  res = Return [PDict [("username", PStr (to_text u));
                       ("password", PStr (to_text secret))]].
Proof.
  intros Hrun Hlog _ H1 H2 Hentry Hu Hsecret.
  destruct (run_three_exchanges _ _ _ _ _ _ _ _ Hrun Hlog)
    as (guid & more & token & doc & _ & _ & Hdoc & _ & _ & Hres).
  simpl in Hdoc, Hres. unfold document_of, reply_of in Hdoc.
  rewrite (ok_status_not_error _ H1), Hentry in Hdoc. injection Hdoc as <-.
  rewrite (ok_status_not_error _ H2), Hsecret, Hu in Hres. exact Hres.
Qed.

Lemma http_error_msg_404 r :
  status_code r = 404 ->
  Requests.is_error_status r = true /\
  Requests.http_error_msg r
  = "404 Client Error: " +:+ reason r +:+ " for url: " +:+ url r.
Proof.
  intros H. unfold Requests.is_error_status, Requests.http_error_msg.
  rewrite H. split; reflexivity.
Qed.

(** C2.  When the entry GET is answered with status 200 and the password
    GET with status 404, [run] returns no record at all: it raises the
    [AnsibleError] built by the [HTTPError] clause of [get_password], which
    carries the status, the reason and the URL, under the prefix [run]
    puts before every failure of its [try] block. *)
Theorem secret_not_found_aborts terms variables kwargs res st' x0 q1 r1 q2 r2 :
  run server terms variables kwargs initial = (res, st') ->
  log st' = [x0; (q1, Responded r1); (q2, Responded r2)] ->
  status_code r1 = 200 -> status_code r2 = 404 ->
  res = Raise (Exn AnsibleError
                 ("No entry found An HTTP Error occured 404 Client Error: "
                  +:+ reason r2 +:+ " for url: " +:+ url r2)).
Proof.
  intros Hrun Hlog _ H2.
  destruct (run_three_exchanges _ _ _ _ _ _ _ _ Hrun Hlog)
    as (guid & more & token & doc & _ & _ & _ & _ & _ & Hres).
  simpl in Hres. destruct (http_error_msg_404 _ H2) as [Herr Hmsg].
  rewrite Herr, Hmsg in Hres. exact Hres.
Qed.

(** C6, as amended.  When all three calls are answered with status 200
    and decodable bodies and the entry object has no [Username] field,
    [run] raises nothing: [entry.get] gives [None], and the run returns
    one record whose [username] is the text [None] and whose [password]
    is [to_text] of the password document. *)
Theorem missing_username_yields_None_text
    terms variables kwargs res st' q0 r0 q1 r1 q2 r2 entry secret :
  run server terms variables kwargs initial = (res, st') ->
  log st' = [(q0, Responded r0); (q1, Responded r1); (q2, Responded r2)] ->
  status_code r0 = 200 -> status_code r1 = 200 -> status_code r2 = 200 ->
  content r1 = Json (PDict entry) -> dict_get entry "Username" = None ->
  content r2 = Json secret ->
  res = Return [PDict [("username", PStr "None");
                       ("password", PStr (to_text secret))]].
Proof.
  intros Hrun Hlog _ H1 H2 Hentry Hu Hsecret.
  destruct (run_three_exchanges _ _ _ _ _ _ _ _ Hrun Hlog)
    as (guid & more & token & doc & _ & _ & Hdoc & _ & _ & Hres).
  simpl in Hdoc, Hres. unfold document_of, reply_of in Hdoc.
  rewrite (ok_status_not_error _ H1), Hentry in Hdoc. injection Hdoc as <-.
  rewrite (ok_status_not_error _ H2), Hsecret, Hu in Hres. exact Hres.
Qed.

Lemma token_of_placeholder r d :
  status_code r = 200 -> content r = Json (PDict d) ->
  dict_get d "access_token" = None ->
  token_of (Responded r) = Some "default".
Proof.
  intros Hs Hc Hd. unfold token_of, document_of, reply_of.
  rewrite (ok_status_not_error _ Hs), Hc. simpl. by rewrite Hd.
Qed.

(** C8.  When [pleasant_verify] is set to a CA bundle path, every call
    the run makes passes exactly that path as [verify], and a run that
    returns has made three calls. *)
Theorem every_call_presents_verify terms variables kwargs res st' path :
  variables !! "pleasant_verify" = Some (PStr path) ->
  run server terms variables kwargs initial = (res, st') ->
  Forall (fun x => req_verify (fst x) = PStr path) (log st')
  /\ forall records, res = Return records -> length (log st') = 3%nat.
Proof.
  intros Hv Hrun.
  assert (dict_get_or_None variables "pleasant_verify" = PStr path) as Hverify
    by (unfold dict_get_or_None; by rewrite Hv).
  apply run_inv in Hrun as [[Hl [e ->]]|(h & guid & more & Hh & -> & Hcase)].
  { rewrite Hl. split; [constructor|done]. }
  cbv zeta in Hcase. rewrite Hverify in Hcase.
  destruct (token_of _); [destruct (document_of _)|];
    destruct Hcase as [Hl Hres]; rewrite Hl.
  - split; [by repeat constructor|done].
  - destruct Hres as [e ->]. split; [by repeat constructor|done].
  - destruct Hres as [e ->]. split; [by repeat constructor|done].
Qed.

(** C10.  With a non-empty [terms], [run] behaves as it does on the first
    term alone (same result, same trace, same display); a result it
    returns holds exactly one record; and every GET it sends is for the
    entry named by the first term. *)
Theorem only_first_term_is_used guid more variables kwargs :
  run server (guid :: more) variables kwargs = run server [guid] variables kwargs
  /\ let out := run server (guid :: more) variables kwargs initial in
     let host := dict_get_or_None variables "pleasant_host" in
     match fst out with
     | Return records => length records = 1%nat
     | Raise _ => True
     end
     /\ Forall (fun x =>
                  req_method (fst x) = "POST"
                  \/ req_url (fst x)
                     = py_str host +:+ "/api/v5/rest/entries/" +:+ py_str guid
                  \/ req_url (fst x)
                     = py_str host +:+ "/api/v5/rest/entries/" +:+ py_str guid
                       +:+ "/password")
               (log (snd out)).
Proof.
  split; [reflexivity|]. cbv zeta.
  destruct (run server (guid :: more) variables kwargs initial) as [res st'] eqn:Hrun.
  apply run_inv in Hrun as [[Hl [e ->]]|(h & guid' & more' & Hh & Ht & Hcase)].
  { simpl. rewrite Hl. split; [done|constructor]. }
  injection Ht as <- <-. cbv zeta in Hcase. simpl fst; simpl snd.
  destruct (token_of _); [destruct (document_of _) as [entry|]|];
    destruct Hcase as [Hl Hres]; rewrite Hl.
  - split; [|repeat (apply Forall_cons_2; [simpl; auto|]); apply Forall_nil_2].
    destruct (server _ (password_request _ _ _ _ _)) as [r2|e2];
      [|by destruct Hres as [e ->]].
    destruct (Requests.is_error_status r2); [by rewrite Hres|].
    destruct (content r2), entry;
      first [by rewrite Hres | by destruct Hres as [e ->]].
  - destruct Hres as [e ->]. split; [done|repeat (apply Forall_cons_2; [simpl; auto|]); apply Forall_nil_2].
  - destruct Hres as [e ->]. split; [done|repeat (apply Forall_cons_2; [simpl; auto|]); apply Forall_nil_2].
Qed.

End Properties.

(** C9, as amended.  The two classes agree method by method on
    [get_token], [get_pps_entry] and [get_password]; and whenever the
    options that [src/pleasant.py] declares resolve, so that its
    [set_options] returns, [run] of [src/pleasant.py] and [run] of
    [src/plugins/lookup/pleasant.py] make the same calls and end with the
    same result or the same exception, under every server and from every
    state. *)
Theorem implementations_agree_when_options_resolve
    {rt : PyRuntime} {cfg : ConfigManager} (server : oracle)
    terms variables kwargs resolved :
  get_plugin_options Pleasant.options variables kwargs = inr resolved ->
  (forall host username password verify timeout,
     Pleasant.get_token server host username password verify timeout
     = PluginsLookupPleasant.get_token server host username password verify timeout)
  /\ (forall host guid verify timeout token,
        Pleasant.get_pps_entry server host guid verify timeout token
        = PluginsLookupPleasant.get_pps_entry server host guid verify timeout token)
  /\ (forall host guid verify timeout token,
        Pleasant.get_password server host guid verify timeout token
        = PluginsLookupPleasant.get_password server host guid verify timeout token)
  /\ Pleasant.run server terms variables kwargs
     = PluginsLookupPleasant.run server terms variables kwargs.
Proof.
  intros Hopt. split_and!; try (intros; reflexivity).
  unfold Pleasant.run, PluginsLookupPleasant.run.
  rewrite (set_options_accepted _ _ _ _ Hopt). reflexivity.
Qed.

(** ** The plugin at concrete inputs *)

Section Evaluations.
Import Fixtures.
Context {rt : PyRuntime}.
Existing Instance stock_config.

(** C3.  The claim asks that a token answer with any status other than
    200 aborts the run before the two GETs.  At status 201 the plugin
    displays its authentication failure line, then goes on with the token
    of the body: both GETs are sent and a credential is returned. *)
Theorem token_status_201_is_not_fatal :
  let out := Pleasant.run token_created [guid] variables ∅ initial in
  fst out = Return [PDict [("username", PStr "bob"); ("password", PStr "s3cret")]]
  /\ map (fun x => (req_method (fst x), req_url (fst x))) (log (snd out))
     = [("POST", token_url); ("GET", entry_url); ("GET", password_url)]
  /\ shown (snd out)
     = ["Authentication failed getting an access token from Pleasant 201 Created"].
Proof. cbv zeta. split_and!; reflexivity. Qed.

(** C5.  The claim asks that a token answer with status 200 and a body
    that is not JSON aborts the run with a failure carrying the decoding
    error's message.  The handler that builds that failure reads
    [pleasant_at], which the failed assignment never bound, so the run
    ends with an [UnboundLocalError] and the decoding message is lost. *)
Theorem token_decode_failure_is_unbound_local :
  let out := Pleasant.run token_not_json [guid] variables ∅ initial in
  fst out = Raise (Exn UnboundLocalError (unbound_local_msg "pleasant_at"))
  /\ map snd (log (snd out))
     = [Responded (Response 200 "OK" token_url
                     (NotJson "Expecting value: line 1 column 1 (char 0)"))].
Proof. cbv zeta. split; reflexivity. Qed.

(** C7.  The claim asks that a connect timeout of the token POST is
    reported as a timeout.  [ConnectTimeout] is a [ConnectionError], whose
    clause comes first, so the run reports a connection failure; the
    clause written for [ConnectTimeout] never runs.  No GET is sent. *)
Theorem connect_timeout_is_reported_as_connection_failure (msg : string) :
  let out := Pleasant.run (connect_timeout msg) [guid] variables ∅ initial in
  fst out = Raise (Exn AnsibleError ("Can't connect to host to get token " +:+ msg))
  /\ map (fun x => (req_method (fst x), req_url (fst x))) (log (snd out))
     = [("POST", token_url)].
Proof. cbv zeta. split; reflexivity. Qed.

(** The sibling path: a read timeout reaches the [Timeout] clause. *)
Lemma read_timeout_is_reported_as_timeout (msg : string) :
  let out := Pleasant.run (scripted [Raised (Exn ReadTimeout msg)])
               [guid] variables ∅ initial in
  fst out = Raise (Exn AnsibleError ("The request timed out " +:+ msg))
  /\ map (fun x => (req_method (fst x), req_url (fst x))) (log (snd out))
     = [("POST", token_url)].
Proof. cbv zeta. split; reflexivity. Qed.

End Evaluations.

(** * Further properties of the plugin *)

(** ** Exceptions and display, clause by clause *)

Section Footprints.
Context {rt : PyRuntime} {cfg : ConfigManager} (server : oracle).
Import Pleasant.

Lemma raises_only_ret {A} S (a : A) : raises_only S (ret a).
Proof. intros st e st' H. discriminate H. Qed.

Lemma raises_only_raise {A} (S : exc_class -> Prop) e :
  S (exn_class e) -> raises_only (A:=A) S (raise e).
Proof. intros HS st e' st' H. unfold raise in H. by simplify_eq. Qed.

Lemma raises_only_bind {A B} S (m : M A) (k : A -> M B) :
  raises_only S m -> (forall a, raises_only S (k a)) -> raises_only S (bind m k).
Proof.
  intros Hm Hk st e st' H.
  apply bind_inv in H as [(a & s & _ & H)|(e' & H & He)].
  - by eapply Hk.
  - simplify_eq. by eapply Hm.
Qed.

Lemma raises_only_weaken {A} (S S' : exc_class -> Prop) (m : M A) :
  (forall c, S c -> S' c) -> raises_only S m -> raises_only S' m.
Proof. intros HSS Hm st e st' H. eapply HSS, Hm, H. Qed.

(** With a clause for [Exception] among clauses that all raise
    [AnsibleError], nothing else leaves the [try]. *)
Lemma handle_catch_all {A} (clauses : list (handler A)) e st :
  Forall (fun c => raises_AnsibleError (snd c)) clauses ->
  Exists (fun c => fst c = Exception) clauses ->
  exists msg, handle clauses e st = (Raise (Exn AnsibleError msg), st).
Proof.
  intros Hall Hex. induction Hex as [[c h] rest Hc|[c h] rest _ IH];
    apply Forall_cons in Hall as [Hh Hrest]; simpl in *.
  - subst c. rewrite every_class_is_an_Exception. apply Hh.
  - destruct (issubclass (exn_class e) c); [apply Hh|by apply IH].
Qed.

Lemma try_except_catch_all {A} (m : M A) clauses :
  Forall (fun c => raises_AnsibleError (snd c)) clauses ->
  Exists (fun c => fst c = Exception) clauses ->
  raises_only (fun c => c = AnsibleError) (try_except m clauses).
Proof.
  intros Hall Hex st e st' H. unfold try_except in H.
  destruct (m st) as [[a|e0] s]; [discriminate H|].
  destruct (handle_catch_all clauses e0 s Hall Hex) as [msg Hm].
  rewrite Hm in H. by simplify_eq.
Qed.

Ltac ansible_clauses :=
  repeat (apply Forall_cons_2; [intros ? ?; eexists; reflexivity|]); apply Forall_nil_2.

Ltac has_catch_all :=
  repeat first [apply Exists_cons_hd; reflexivity | apply Exists_cons_tl].

Lemma get_pps_entry_raises host guid verify timeout token :
  raises_only (fun c => c = TypeError \/ c = AnsibleError)
    (get_pps_entry server host guid verify timeout token).
Proof.
  unfold get_pps_entry. apply raises_only_bind.
  - destruct token; first [apply raises_only_ret | apply raises_only_raise; by left].
  - intros authorization. apply raises_only_bind; [|intros; apply raises_only_ret].
    eapply raises_only_weaken; [|apply try_except_catch_all];
      [by right|ansible_clauses|has_catch_all].
Qed.

Lemma get_password_raises host guid verify timeout token :
  raises_only (fun c => c = TypeError \/ c = AnsibleError)
    (get_password server host guid verify timeout token).
Proof.
  unfold get_password. apply raises_only_bind.
  - destruct token; first [apply raises_only_ret | apply raises_only_raise; by left].
  - intros authorization. apply raises_only_bind; [|intros; apply raises_only_ret].
    eapply raises_only_weaken; [|apply try_except_catch_all];
      [by right|ansible_clauses|has_catch_all].
Qed.

Lemma json_raises r : raises_only (fun c => c = JSONDecodeError) (Requests.json r).
Proof.
  unfold Requests.json. destruct (content r);
    [apply raises_only_ret|by apply raises_only_raise].
Qed.

Lemma py_get_raises o key dflt :
  raises_only (fun c => c = AttributeError) (py_get o key dflt).
Proof.
  unfold py_get. destruct o; first [apply raises_only_ret | by apply raises_only_raise].
Qed.

Lemma silent_ret {A} (a : A) : silent (ret a).
Proof. by intros st. Qed.

Lemma silent_raise {A} e : silent (A:=A) (raise e).
Proof. by intros st. Qed.

Lemma silent_bind {A B} (m : M A) (k : A -> M B) :
  silent m -> (forall a, silent (k a)) -> silent (bind m k).
Proof.
  intros Hm Hk st. unfold bind. specialize (Hm st).
  destruct (m st) as [[a|e] s]; simpl in *; [|done].
  by rewrite Hk.
Qed.

Lemma silent_handle {A} (clauses : list (handler A)) e :
  Forall (fun c => forall e', silent (snd c e')) clauses -> silent (handle clauses e).
Proof.
  induction 1 as [|[c h] rest Hh _ IH]; simpl; [apply silent_raise|].
  destruct (issubclass (exn_class e) c); [apply Hh|apply IH].
Qed.

Lemma silent_try_except {A} (m : M A) clauses :
  silent m -> Forall (fun c => forall e', silent (snd c e')) clauses ->
  silent (try_except m clauses).
Proof.
  intros Hm Hcl st. unfold try_except. specialize (Hm st).
  destruct (m st) as [[a|e] s]; simpl in *; [done|].
  by rewrite silent_handle.
Qed.

Lemma silent_request q : silent (Requests.request server q).
Proof. intros st. unfold Requests.request. by destruct (server (log st) q). Qed.

Lemma silent_raise_for_status r : silent (Requests.raise_for_status r).
Proof.
  unfold Requests.raise_for_status.
  destruct (Requests.is_error_status r); [apply silent_raise|apply silent_ret].
Qed.

(** X11.  [get_password] never writes to the display, whatever its
    arguments and whatever the server does (an error status of the
    password GET is only raised, where [get_token] and [get_pps_entry]
    also display a line). *)
Theorem get_password_displays_nothing host pleasant_id verify timeout token st :
  shown (snd (get_password server host pleasant_id verify timeout token st)) = shown st.
Proof.
  revert st. change (silent (get_password server host pleasant_id verify timeout token)).
  unfold get_password. apply silent_bind.
  { destruct token; first [apply silent_ret | apply silent_raise]. }
  intros authorization. apply silent_bind; [|intros; apply silent_ret].
  apply silent_try_except.
  - apply silent_bind; [apply silent_request|]. intros response.
    apply silent_bind; [|intros; apply silent_ret].
    destruct (negb _); [apply silent_raise_for_status|apply silent_ret].
  - repeat (apply Forall_cons_2; [intros ?; apply silent_raise|]). apply Forall_nil_2.
Qed.

End Footprints.

(** ** The run, stage by stage *)

Section Stages.
Context {rt : PyRuntime} {cfg : ConfigManager} (server : oracle).
Import Pleasant.

Local Arguments pretty : simpl never.
Local Arguments String.append : simpl never.
Local Arguments handle : simpl never.

Ltac given H :=
  lazymatch type of H with
  | server ?l ?q = _ =>
      repeat match goal with
             | |- context [server ?l' ?q'] =>
                 progress change (server l' q') with (server l q)
             end;
      rewrite H
  end.

Lemma unlisted_spec c :
  unlisted c = true ->
  issubclass c ConnectionError = false /\ issubclass c HTTPError = false
  /\ issubclass c URLRequired = false /\ issubclass c ConnectTimeout = false
  /\ issubclass c Timeout = false.
Proof.
  destruct c; vm_compute; intros H; try discriminate H; by split_and!.
Qed.

(** A run that has a token document fails only through the last clause
    of [run]. *)
Lemma run_failure_after_token terms variables kwargs e st' x0 j rest :
  run server terms variables kwargs initial = (Raise e, st') ->
  log st' = x0 :: rest ->
  document_of (snd x0) = Some j ->
  exists msg, e = Exn AnsibleError ("No entry found " +:+ msg).
Proof.
  intros Hrun Hlog Hdoc. unfold run in Hrun.
  apply bind_inv in Hrun as [(? & s0 & Hso & Hk1)|(e0 & He & _)];
    [apply set_options_inv in Hso as [-> _]
    |apply set_options_inv in He as [-> _]; discriminate Hlog].
  apply bind_inv in Hk1 as [(guid & s0' & Hguid & Hk2)|(e0 & He & _)];
    [|destruct terms; unfold item0, ret, raise in He; simplify_eq; by rewrite Hlog in *].
  destruct terms as [|guid' more]; unfold item0, ret, raise in Hguid; simplify_eq.
  apply bind_inv in Hk2 as [(tk & s1 & Htk & Hk3)|(e0 & Htk & _)].
  2:{ apply get_token_inv in Htk as [[Hl _]|(h & _ & Hl & Hres)];
        rewrite Hl in Hlog; [discriminate Hlog|].
      simpl in Hlog. injection Hlog as Hx0 _. subst x0. cbv zeta in Hres.
      simpl in Hres, Hdoc. rewrite Hdoc in Hres. discriminate Hres. }
  apply bind_inv in Hk3 as [(l & s2 & _ & Hret)|(e0 & Htry & He)];
    [unfold ret in Hret; discriminate Hret|].
  injection He as <-. unfold try_except in Htry.
  match type of Htry with
  | context [match ?b s1 with _ => _ end] =>
      assert (raises_only (fun c => unlisted c = true) b) as Hb;
        [|destruct (b s1) as [[l|e0] sB] eqn:HB; [discriminate Htry|apply Hb in HB]]
  end.
  { repeat (apply raises_only_bind;
            [eapply raises_only_weaken;
             [|first [apply py_get_raises | apply (get_pps_entry_raises server)
                     | apply (get_password_raises server) | apply json_raises]];
             intros c Hc; cbv beta in Hc; destruct_or?; subst c; reflexivity
            |intros ?]).
    apply raises_only_ret. }
  apply unlisted_spec in HB as (H1 & H2 & H3 & H4 & H5).
  rewrite !handle_cons, H1, H2, H3, H4, H5, every_class_is_an_Exception in Htry.
  unfold raise in Htry. injection Htry as <- _. by eexists.
Qed.

(** X6.  Once the token POST has been answered with a status that
    [raise_for_status] lets through and a body that decodes, every failure
    of [run] is an [AnsibleError] whose message starts with
    [No entry found ]: whatever goes wrong in the two GETs, in decoding
    their bodies or in reading the documents reaches the caller through
    the last clause of [run], never through its clauses for connection,
    HTTP, URL or timeout errors. *)
Theorem failure_after_token_is_wrapped terms variables kwargs e st' q0 r0 j rest :
  run server terms variables kwargs initial = (Raise e, st') ->
  log st' = (q0, Responded r0) :: rest ->
  Requests.is_error_status r0 = false -> content r0 = Json j ->
  exists msg, e = Exn AnsibleError ("No entry found " +:+ msg).
Proof.
  intros Hrun Hlog Herr Hjson.
  eapply run_failure_after_token; [exact Hrun|exact Hlog|].
  simpl. unfold document_of, reply_of. by rewrite Herr, Hjson.
Qed.

(** C4, as amended.  When the token POST is answered with status 200 and
    a JSON object without [access_token], the run goes on: the entry GET
    is sent with [Authorization] exactly [Bearer default], and nothing is
    sent after it but the password GET, with the same headers.  When the
    entry GET is answered with status 200 and a body that decodes, the
    password GET is sent.  When the entry GET raises, or is answered with
    a status from 400 to 599, or with status 200 and a body that does not
    decode, the password GET is not sent and the run fails with an
    [AnsibleError] whose message starts with [No entry found ].  (Nothing
    is said of the other statuses.) *)
Theorem placeholder_token_is_sent terms variables kwargs res st' q0 r0 d rest :
  run server terms variables kwargs initial = (res, st') ->
  log st' = (q0, Responded r0) :: rest ->
  status_code r0 = 200 -> content r0 = Json (PDict d) ->
  dict_get d "access_token" = None ->
  let host := dict_get_or_None variables "pleasant_host" in
  let verify := dict_get_or_None variables "pleasant_verify" in
  let timeout := dict_get_or_None variables "pleasant_timeout" in
  exists guid more,
    terms = guid :: more /\
    let q1 := entry_request host guid verify timeout "default" in
    let o1 := server [(q0, Responded r0)] q1 in
    let q2 := password_request host guid verify timeout "default" in
    let o2 := server [(q0, Responded r0); (q1, o1)] q2 in
    let aborted :=
      rest = [(q1, o1)]
      /\ exists msg, res = Raise (Exn AnsibleError ("No entry found " +:+ msg)) in
    req_headers q1 = [("Content-type", "application/json");
                      ("Authorization", "Bearer default")] /\
    req_headers q2 = [("Content-type", "application/json");
                      ("Authorization", "Bearer default")] /\
    (rest = [(q1, o1)] \/ rest = [(q1, o1); (q2, o2)]) /\
    match o1 with
    | Raised _ => aborted
    | Responded r1 =>
        if Requests.is_error_status r1 then aborted
        else if (status_code r1 =? 200)%Z then
          match content r1 with
          | Json _ => rest = [(q1, o1); (q2, o2)]
          | NotJson _ => aborted
          end
        else True
    end.
Proof.
  intros Hrun Hlog Hs Hc Hd host verify timeout.
  pose proof (token_of_placeholder _ _ Hs Hc Hd) as Htok.
  assert (forall e, res = Raise e ->
            exists msg, res = Raise (Exn AnsibleError ("No entry found " +:+ msg)))
    as Hwrapped.
  { intros e ->.
    destruct (run_failure_after_token _ _ _ _ _ _ (PDict d) _ Hrun Hlog) as [msg ->];
      [|by eexists].
    simpl. unfold document_of, reply_of.
    by rewrite (ok_status_not_error _ Hs), Hc. }
  apply run_inv in Hrun as [[Hl _]|(h & guid & more & Hh & -> & Hcase)];
    [by rewrite Hl in Hlog|].
  cbv zeta in Hcase. fold host verify timeout in Hcase.
  exists guid, more. split; [done|]. cbv zeta.
  set (q0' := token_request _ _ _ _ _) in *.
  set (o0 := server [] q0') in *.
  assert (q0' = q0 /\ o0 = Responded r0) as [Hq0 Ho0]
    by (clearbody o0 q0';
        destruct (token_of o0); [destruct (document_of _)|];
        destruct Hcase as [Hl _]; rewrite Hl in Hlog; by simplify_eq).
  clearbody o0 q0'; subst o0 q0'; rewrite Htok in Hcase.
  set (q1 := entry_request host guid verify timeout "default") in *.
  match goal with
  | |- context [server ?l q1] => set (o1 := server l q1) in *
  end.
  change (server _ q1) with o1 in Hcase; clearbody o1.
  split_and!; [done..| |].
  - destruct (document_of o1); destruct Hcase as [Hl _];
      rewrite Hl in Hlog; simplify_eq; [by right|by left].
  - destruct (document_of o1) as [entry|] eqn:Hdoc;
      destruct Hcase as [Hl Hres]; rewrite Hl in Hlog;
      injection Hlog as <-; unfold document_of, reply_of in Hdoc.
    + destruct o1 as [r1|e1]; [|discriminate Hdoc].
      destruct (Requests.is_error_status r1); [discriminate Hdoc|].
      destruct (status_code r1 =? 200)%Z; [|done].
      by destruct (content r1).
    + destruct Hres as [e Hres]. apply Hwrapped in Hres.
      destruct o1 as [r1|e1]; [|done].
      destruct (Requests.is_error_status r1); [done|].
      destruct (status_code r1 =? 200)%Z; [|done].
      by destruct (content r1).
Qed.

(** X1.  When the declared options resolve and [terms] is empty, [run]
    raises the [IndexError] of [terms[0]] as it is; no request is sent and
    nothing is displayed, in whatever state the run starts. *)
Theorem empty_terms_raise_before_any_call variables kwargs st resolved :
  get_plugin_options options variables kwargs = inr resolved ->
  run server [] variables kwargs st
  = (Raise (Exn IndexError "list index out of range"), st).
Proof.
  intros Hopt. unfold run. rewrite (set_options_accepted _ _ _ _ Hopt).
  reflexivity.
Qed.

(** X2.  When the declared options resolve and [pleasant_host] is not a
    string (it is [None] when the
    variable is not set), [run] raises the [TypeError] of
    [pleasant_host + "/oauth2/token"] as it is, not an [AnsibleError]; no
    request is sent. *)
Theorem host_not_a_string_raises_TypeError guid more variables kwargs st resolved :
  get_plugin_options options variables kwargs = inr resolved ->
  (forall h, dict_get_or_None variables "pleasant_host" <> PStr h) ->
  run server (guid :: more) variables kwargs st
  = (Raise (Exn TypeError
              (add_error_msg (dict_get_or_None variables "pleasant_host")
                             (PStr "/oauth2/token"))),
     st).
Proof.
  intros Hopt Hh.
  unfold run, set_options, get_token, item0, bind, try_except, ret, add_str_r.
  rewrite Hopt.
  destruct (dict_get_or_None variables "pleasant_host") as [| | | |h| |];
    first [by destruct (Hh h) | reflexivity].
Qed.

(** X3.  (The declared options resolve.)  An exception of the token POST
    that is no [ConnectionError],
    [HTTPError], [URLRequired] or [Timeout] (a [MissingSchema] or
    [InvalidURL] for a malformed host, say) leaves [run] as it was raised:
    [get_token] has no clause for it and is called outside the [try] of
    [run].  Nothing further is sent. *)
Theorem token_unlisted_exception_escapes h guid more variables kwargs e resolved :
  get_plugin_options options variables kwargs = inr resolved ->
  dict_get_or_None variables "pleasant_host" = PStr h ->
  let q0 := token_request h (dict_get_or_None variables "pleasant_username")
              (dict_get_or_None variables "pleasant_password")
              (dict_get_or_None variables "pleasant_verify")
              (dict_get_or_None variables "pleasant_timeout") in
  server [] q0 = Raised e ->
  unlisted (exn_class e) = true ->
  run server (guid :: more) variables kwargs initial
  = (Raise e, State [(q0, Raised e)] []).
Proof.
  intros Hopt Hh q0 Hq0 (H1 & H2 & H3 & H4 & H5)%unlisted_spec.
  unfold run, set_options, get_token, item0, bind, try_except, ret, add_str_r,
    Requests.request, raise.
  rewrite Hopt, Hh. simpl. unfold q0 in Hq0. given Hq0. simpl.
  rewrite !handle_cons, H1, H2, H3, H4, H5. reflexivity.
Qed.

(** X4.  The requests of a run are an initial part of: the token POST,
    the entry GET, the password GET, in this order and each at most once.
    Both GETs carry the same token, which is the one read from the answer
    to the POST. *)
Theorem requests_follow_the_workflow terms variables kwargs :
  let out := run server terms variables kwargs initial in
  let host := dict_get_or_None variables "pleasant_host" in
  let verify := dict_get_or_None variables "pleasant_verify" in
  let timeout := dict_get_or_None variables "pleasant_timeout" in
  map fst (log (snd out)) = []
  \/ exists h guid more,
       host = PStr h /\ terms = guid :: more /\
       let q0 := token_request h (dict_get_or_None variables "pleasant_username")
                   (dict_get_or_None variables "pleasant_password") verify timeout in
       map fst (log (snd out)) = [q0]
       \/ exists token,
            token_of (server [] q0) = Some token /\
            let q1 := entry_request host guid verify timeout token in
            let q2 := password_request host guid verify timeout token in
            map fst (log (snd out)) = [q0; q1]
            \/ map fst (log (snd out)) = [q0; q1; q2].
Proof.
  cbv zeta.
  destruct (run server terms variables kwargs initial) as [res st'] eqn:Hrun.
  apply run_inv in Hrun as [[Hl _]|(h & guid & more & Hh & -> & Hcase)]; simpl.
  { left. by rewrite Hl. }
  right. exists h, guid, more. split_and!; [done..|]. cbv zeta in Hcase.
  destruct (token_of _) as [token|]; [|destruct Hcase as [-> _]; by left].
  right. exists token. split; [done|].
  destruct (document_of _); destruct Hcase as [-> _]; [by right|by left].
Qed.

(** X5.  The timeout of every request: the POST falls back to 5 only
    when [pleasant_timeout] is [None] (or not set); the GETs fall back to 5
    for every false value, so a timeout of [0], [False] or the empty
    string is passed to the POST as it is and replaced by 5 in the GETs. *)
Theorem timeout_defaults_differ terms variables kwargs :
  let out := run server terms variables kwargs initial in
  let timeout := dict_get_or_None variables "pleasant_timeout" in
  Forall (fun x =>
            req_timeout (fst x)
            = if String.eqb (req_method (fst x)) "POST"
              then (if is_None timeout then PInt 5 else timeout)
              else (if py_truthy timeout then timeout else PInt 5))
         (log (snd out)).
Proof.
  cbv zeta.
  destruct (run server terms variables kwargs initial) as [res st'] eqn:Hrun.
  apply run_inv in Hrun as [[Hl _]|(h & guid & more & Hh & -> & Hcase)]; simpl.
  { rewrite Hl. apply Forall_nil_2. }
  cbv zeta in Hcase.
  destruct (token_of _); [destruct (document_of _)|]; destruct Hcase as [-> _];
    repeat (apply Forall_cons_2;
            [simpl; by destruct (py_truthy (dict_get_or_None variables "pleasant_timeout"))|]);
    apply Forall_nil_2.
Qed.

(** X7.  (The declared options resolve.)  When the token POST is answered with status 200 and a JSON
    document that is not an object, [at.get] raises an [AttributeError];
    [run] reports it as [AnsibleError] with the prefix [No entry found ],
    and no GET is sent. *)
Theorem token_document_not_an_object h guid more variables kwargs r j resolved :
  get_plugin_options options variables kwargs = inr resolved ->
  dict_get_or_None variables "pleasant_host" = PStr h ->
  let q0 := token_request h (dict_get_or_None variables "pleasant_username")
              (dict_get_or_None variables "pleasant_password")
              (dict_get_or_None variables "pleasant_verify")
              (dict_get_or_None variables "pleasant_timeout") in
  server [] q0 = Responded r ->
  status_code r = 200 -> content r = Json j ->
  (forall d, j <> PDict d) ->
  run server (guid :: more) variables kwargs initial
  = (Raise (Exn AnsibleError ("No entry found " +:+ attribute_error_msg j "get")),
     State [(q0, Responded r)] []).
Proof.
  intros Hopt Hh q0 Hq0 Hs Hc Hj.
  unfold run, set_options, get_token, item0, bind, try_except, ret, add_str_r,
    Requests.request, Requests.json, py_get, raise.
  rewrite Hopt, Hh. simpl. unfold q0 in Hq0. given Hq0. simpl.
  rewrite Hs. simpl. rewrite Hc.
  destruct j as [| | | | | |d]; first [by destruct (Hj d) | reflexivity].
Qed.

(** X8.  (The declared options resolve.)  When the token document has an [access_token] that is not a
    string (a number, or [null]: the key is there, so the default is not
    used), building the [Authorization] header raises a [TypeError] before
    the entry GET is sent; [run] reports it as [AnsibleError] with the
    prefix [No entry found ]. *)
Theorem token_not_a_string h guid more variables kwargs r d v resolved :
  get_plugin_options options variables kwargs = inr resolved ->
  dict_get_or_None variables "pleasant_host" = PStr h ->
  let q0 := token_request h (dict_get_or_None variables "pleasant_username")
              (dict_get_or_None variables "pleasant_password")
              (dict_get_or_None variables "pleasant_verify")
              (dict_get_or_None variables "pleasant_timeout") in
  server [] q0 = Responded r ->
  status_code r = 200 -> content r = Json (PDict d) ->
  dict_get d "access_token" = Some v ->
  (forall s, v <> PStr s) ->
  run server (guid :: more) variables kwargs initial
  = (Raise (Exn AnsibleError ("No entry found " +:+ add_error_msg (PStr "Bearer ") v)),
     State [(q0, Responded r)] []).
Proof.
  intros Hopt Hh q0 Hq0 Hs Hc Hd Hv.
  unfold run, set_options, get_token, get_pps_entry, item0, bind, try_except, ret,
    add_str_r, add_str_l, Requests.request, Requests.json, py_get, raise.
  rewrite Hopt, Hh. simpl. unfold q0 in Hq0. given Hq0. simpl.
  rewrite Hs. simpl. rewrite Hc. simpl. rewrite Hd. simpl.
  destruct v as [| | | |s| |]; first [by destruct (Hv s) | reflexivity].
Qed.

(** X9.  [run] reads [Username] only after it has fetched the secret:
    when the entry GET is answered with status 200 and a JSON document
    that is not an object, the password GET is still sent, with the same
    headers, and the run then fails without a record. *)
Theorem secret_is_fetched_before_the_entry_is_read
    terms variables kwargs res st' x0 q1 r1 j rest :
  run server terms variables kwargs initial = (res, st') ->
  log st' = x0 :: (q1, Responded r1) :: rest ->
  status_code r1 = 200 -> content r1 = Json j ->
  (forall d, j <> PDict d) ->
  exists q2 o2,
    rest = [(q2, o2)] /\ req_method q2 = "GET"
    /\ req_headers q2 = req_headers q1
    /\ exists e, res = Raise e.
Proof.
  intros Hrun Hlog Hs Hc Hj.
  apply run_inv in Hrun as [[Hl _]|(h & guid & more & Hh & -> & Hcase)];
    [by rewrite Hl in Hlog|].
  cbv zeta in Hcase.
  destruct (token_of _) as [token|];
    [|destruct Hcase as [Hl _]; rewrite Hl in Hlog; discriminate Hlog].
  destruct (document_of _) as [entry|] eqn:Hdoc.
  - destruct Hcase as [Hl Hres]. rewrite Hl in Hlog.
    injection Hlog as _ Hq1 Ho1 Hrest. rewrite Ho1 in Hdoc.
    unfold document_of, reply_of in Hdoc.
    rewrite (ok_status_not_error _ Hs), Hc in Hdoc. injection Hdoc as <-.
    eexists _, _. split; [symmetry; exact Hrest|]. split; [done|].
    split; [by rewrite <- Hq1|].
    destruct (server _ (password_request _ _ _ _ _)) as [r2|e2]; [|done].
    destruct (Requests.is_error_status r2); [by eexists|].
    destruct (content r2); [|done].
    destruct j as [| | | | | |d]; first [by destruct (Hj d) | done].
  - destruct Hcase as [Hl _]. rewrite Hl in Hlog.
    injection Hlog as _ _ Ho1 _. rewrite Ho1 in Hdoc.
    unfold document_of, reply_of in Hdoc.
    by rewrite (ok_status_not_error _ Hs), Hc in Hdoc.
Qed.

(** X10.  Whenever [run] returns, the trace holds exactly three
    exchanges, each answered with a response that [raise_for_status] lets
    through and whose body decodes; the token and entry documents are
    objects; and the result is the one record with the two text fields
    [username] and [password] built from the entry and the secret. *)
Theorem a_returned_record_rests_on_three_good_answers
    terms variables kwargs records st' :
  run server terms variables kwargs initial = (Return records, st') ->
  exists q0 r0 q1 r1 q2 r2 token entry secret,
    log st' = [(q0, Responded r0); (q1, Responded r1); (q2, Responded r2)]
    /\ Requests.is_error_status r0 = false
    /\ Requests.is_error_status r1 = false
    /\ Requests.is_error_status r2 = false
    /\ content r0 = Json (PDict token)
    /\ content r1 = Json (PDict entry)
    /\ content r2 = Json secret
    /\ records = [PDict [("username",
                          PStr (to_text (default PNone (dict_get entry "Username"))));
                         ("password", PStr (to_text secret))]].
Proof.
  intros Hrun.
  apply run_inv in Hrun as [[_ [e He]]|(h & guid & more & Hh & -> & Hcase)];
    [discriminate He|].
  cbv zeta in Hcase.
  destruct (token_of _) as [token|] eqn:Htoken; [|by destruct Hcase as [_ [e He]]].
  destruct (document_of _) as [entry|] eqn:Hentry in Hcase;
    [|by destruct Hcase as [_ [e He]]].
  destruct Hcase as [Hl Hres].
  unfold token_of, document_of, reply_of in Htoken, Hentry.
  destruct (server [] _) as [r0|e0]; [|discriminate Htoken].
  destruct (Requests.is_error_status r0) eqn:H0; [discriminate Htoken|].
  destruct (content r0) as [j0|] eqn:Hc0; [|discriminate Htoken].
  destruct j0 as [| | | | | |d0]; try discriminate Htoken.
  match type of Hentry with
  | context [server ?l ?q] => destruct (server l q) as [r1|e1]
  end; [|discriminate Hentry].
  destruct (Requests.is_error_status r1) eqn:H1; [discriminate Hentry|].
  destruct (content r1) as [j1|] eqn:Hc1; [|discriminate Hentry].
  injection Hentry as ->.
  match type of Hres with
  | context [server ?l ?q] => destruct (server l q) as [r2|e2]
  end; [|by destruct Hres as [e He]].
  destruct (Requests.is_error_status r2) eqn:H2; [discriminate Hres|].
  destruct (content r2) as [secret|] eqn:Hc2; [|by destruct Hres as [e He]].
  destruct entry as [| | | | | |d1]; [by destruct Hres as [e He]..|].
  injection Hres as ->.
  eexists _, r0, _, r1, _, r2, d0, d1, secret. by split_and!.
Qed.

(** X13.  (The declared options resolve.)  A connection failure of the
    entry GET reaches the caller
    wrapped twice: [get_pps_entry] turns it into the [AnsibleError] of its
    [ConnectionError] clause (whose text speaks of the token), and [run]
    puts [No entry found ] before it.  The password GET is not sent. *)
Theorem entry_connection_failure_is_wrapped h guid more variables kwargs r0 d token e resolved :
  get_plugin_options options variables kwargs = inr resolved ->
  dict_get_or_None variables "pleasant_host" = PStr h ->
  let verify := dict_get_or_None variables "pleasant_verify" in
  let timeout := dict_get_or_None variables "pleasant_timeout" in
  let q0 := token_request h (dict_get_or_None variables "pleasant_username")
              (dict_get_or_None variables "pleasant_password") verify timeout in
  let q1 := entry_request (PStr h) guid verify timeout token in
  server [] q0 = Responded r0 ->
  status_code r0 = 200 -> content r0 = Json (PDict d) ->
  dict_get d "access_token" = Some (PStr token) ->
  server [(q0, Responded r0)] q1 = Raised e ->
  issubclass (exn_class e) ConnectionError = true ->
  run server (guid :: more) variables kwargs initial
  = (Raise (Exn AnsibleError
              ("No entry found Can't connect to host to get token " +:+ exn_msg e)),
     State [(q0, Responded r0); (q1, Raised e)] []).
Proof.
  intros Hopt Hh verify timeout q0 q1 Hq0 Hs Hc Hd Hq1 Hsub.
  unfold run, set_options, get_token, get_pps_entry, item0, bind, try_except, ret,
    add_str_r, add_str_l, Requests.request, Requests.json, py_get, raise.
  rewrite Hopt, Hh. simpl. unfold q0 in Hq0. given Hq0. simpl.
  rewrite Hs. simpl. rewrite Hc. simpl. rewrite Hd. simpl.
  unfold q1, q0 in Hq1. given Hq1. simpl.
  rewrite handle_cons, Hsub. reflexivity.
Qed.

(** X15.  (The declared options resolve.)  An entry GET answered with a client or server error status
    aborts the run: the failure line is displayed, the [AnsibleError]
    carries the message of [raise_for_status] under the prefixes of
    [get_pps_entry] and [run], and the password GET is not sent. *)
Theorem entry_error_status_aborts h guid more variables kwargs r0 d token r1 resolved :
  get_plugin_options options variables kwargs = inr resolved ->
  dict_get_or_None variables "pleasant_host" = PStr h ->
  let verify := dict_get_or_None variables "pleasant_verify" in
  let timeout := dict_get_or_None variables "pleasant_timeout" in
  let q0 := token_request h (dict_get_or_None variables "pleasant_username")
              (dict_get_or_None variables "pleasant_password") verify timeout in
  let q1 := entry_request (PStr h) guid verify timeout token in
  server [] q0 = Responded r0 ->
  status_code r0 = 200 -> content r0 = Json (PDict d) ->
  dict_get d "access_token" = Some (PStr token) ->
  server [(q0, Responded r0)] q1 = Responded r1 ->
  Requests.is_error_status r1 = true ->
  run server (guid :: more) variables kwargs initial
  = (Raise (Exn AnsibleError
              ("No entry found An HTTP Error occured " +:+ Requests.http_error_msg r1)),
     State [(q0, Responded r0); (q1, Responded r1)]
           ["Getting crredential failed: (" +:+ pretty (status_code r1)
            +:+ " " +:+ reason r1 +:+ ")"]).
Proof.
  intros Hopt Hh verify timeout q0 q1 Hq0 Hs Hc Hd Hq1 Herr.
  unfold run, set_options, get_token, get_pps_entry, item0, bind, try_except, ret,
    add_str_r, add_str_l, Requests.request, Requests.json, Requests.raise_for_status,
    py_get, display, raise.
  rewrite Hopt, Hh. simpl. unfold q0 in Hq0. given Hq0. simpl.
  rewrite Hs. simpl. rewrite Hc. simpl. rewrite Hd. simpl.
  unfold q1, q0 in Hq1. given Hq1. simpl.
  rewrite (error_status_is_not_200 _ Herr). simpl. rewrite Herr. reflexivity.
Qed.

(** X12.  [get_pps_entry] displays its failure line, with the status
    and the reason, for every answer whose status is not 200, also for one
    it then returns as if nothing had happened (a status below 400); it
    displays nothing for a status 200 or when the GET raises. *)
Theorem get_pps_entry_displays_every_other_status host guid verify timeout token st :
  let q := entry_request host guid verify timeout token in
  shown (snd (get_pps_entry server host guid verify timeout (PStr token) st))
  = (shown st
     ++ match server (log st) q with
        | Responded r =>
            if (status_code r =? 200)%Z then []
            else ["Getting crredential failed: (" +:+ pretty (status_code r)
                  +:+ " " +:+ reason r +:+ ")"]
        | Raised _ => []
        end)%list.
Proof.
  cbv zeta. unfold get_pps_entry, bind, try_except, add_str_l, ret,
    Requests.request, Requests.raise_for_status, display, raise.
  fold (bearer_headers token). fold (entry_request host guid verify timeout token).
  destruct (server (log st) (entry_request host guid verify timeout token)) as [r|e].
  - destruct (status_code r =? 200)%Z; simpl; [by rewrite app_nil_r|].
    destruct (Requests.is_error_status r); reflexivity.
  - match goal with
    | |- context [handle ?cl e ?s1] =>
        destruct (handle_raises cl
                    ltac:(repeat constructor; intros ? ?; eexists; reflexivity) e s1)
          as [e' ->]
    end.
    simpl. by rewrite app_nil_r.
Qed.

(** X16.  Past the resolution of the declared options, [run] reads five
    variables and nothing else: two calls whose options both resolve and
    whose variables agree on [pleasant_host], [pleasant_username],
    [pleasant_password], [pleasant_verify] and [pleasant_timeout] give the
    same run. *)
Theorem run_reads_five_variables
    terms variables1 variables2 kwargs1 kwargs2 resolved1 resolved2 :
  get_plugin_options options variables1 kwargs1 = inr resolved1 ->
  get_plugin_options options variables2 kwargs2 = inr resolved2 ->
  variables1 !! "pleasant_host" = variables2 !! "pleasant_host" ->
  variables1 !! "pleasant_username" = variables2 !! "pleasant_username" ->
  variables1 !! "pleasant_password" = variables2 !! "pleasant_password" ->
  variables1 !! "pleasant_verify" = variables2 !! "pleasant_verify" ->
  variables1 !! "pleasant_timeout" = variables2 !! "pleasant_timeout" ->
  run server terms variables1 kwargs1 = run server terms variables2 kwargs2.
Proof.
  intros Ho1 Ho2 H1 H2 H3 H4 H5. unfold run, dict_get_or_None.
  rewrite (set_options_accepted _ _ _ _ Ho1), (set_options_accepted _ _ _ _ Ho2).
  by rewrite H1, H2, H3, H4, H5.
Qed.


End Stages.

Import Fixtures.
#[local] Existing Instance cpython.
#[local] Existing Instance stock_config.

(** C1 at the round-trip fixture. *)
Lemma lookup_returns_credential_roundtrip :
  fst (Pleasant.run (rt:=cpython) roundtrip [guid] variables ∅ initial)
  = Return [PDict [("username", PStr "bob"); ("password", PStr "s3cret")]].
Proof.
  eapply (lookup_returns_credential (rt:=cpython) roundtrip [guid] variables ∅
            _ _ _ _ _ _ _ _ [("Username", PStr "bob")] (PStr "bob") (PStr "s3cret")).
  - apply surjective_pairing.
  - reflexivity.
  - reflexivity.
  - reflexivity.
  - reflexivity.
  - reflexivity.
  - reflexivity.
  - reflexivity.
Defined.

(** C2 at a server that has the entry and not its secret. *)
Lemma secret_not_found_aborts_example :
  fst (Pleasant.run (rt:=cpython) secret_missing [guid] variables ∅ initial)
  = Raise (Exn AnsibleError
             ("No entry found An HTTP Error occured 404 Client Error: Not Found for url: "
              +:+ password_url)).
Proof.
  eapply (secret_not_found_aborts (rt:=cpython) secret_missing [guid] variables ∅
            _ _ _ _ _ _ password_not_found).
  - apply surjective_pairing.
  - reflexivity.
  - reflexivity.
  - reflexivity.
Defined.

(** C4 as stated fails: the token document has no [access_token], the
    entry GET goes out with [Bearer default] and is answered 401, and the
    run ends there; no password GET is sent. *)
Lemma placeholder_token_secret_get_skipped :
  let out := Pleasant.run (rt:=cpython) placeholder_rejected [guid] variables ∅ initial in
  map snd (log (snd out))
  = [Responded token_reply_without_token; Responded entry_unauthorized]
  /\ map (fun x => (req_method (fst x), req_url (fst x), req_headers (fst x)))
         (log (snd out))
     = [("POST", token_url, [("Content-Type", "application/x-www-form-urlencoded")]);
        ("GET", entry_url, [("Content-type", "application/json");
                            ("Authorization", "Bearer default")])]
  /\ fst out
     = Raise (Exn AnsibleError
                ("No entry found An HTTP Error occured 401 Client Error: Unauthorized for url: "
                 +:+ entry_url)).
Proof. cbv zeta. split_and!; reflexivity. Qed.

(** C4 as amended, at a server that accepts the placeholder. *)
Lemma placeholder_token_is_sent_example :
  let out := Pleasant.run (rt:=cpython) placeholder_accepted [guid] variables ∅ initial in
  let host := dict_get_or_None variables "pleasant_host" in
  let verify := dict_get_or_None variables "pleasant_verify" in
  let timeout := dict_get_or_None variables "pleasant_timeout" in
  exists g more,
    [guid] = g :: more /\
    let q0 := token_request "https://vault.example.com:10001"
                (PStr "svc") (PStr "hunter2") verify timeout in
    let q1 := entry_request host g verify timeout "default" in
    let o1 := placeholder_accepted [(q0, Responded token_reply_without_token)] q1 in
    let q2 := password_request host g verify timeout "default" in
    let o2 := placeholder_accepted
                [(q0, Responded token_reply_without_token); (q1, o1)] q2 in
    let aborted :=
      tail (log (snd out)) = [(q1, o1)]
      /\ exists msg, fst out = Raise (Exn AnsibleError ("No entry found " +:+ msg)) in
    req_headers q1 = [("Content-type", "application/json");
                      ("Authorization", "Bearer default")] /\
    req_headers q2 = [("Content-type", "application/json");
                      ("Authorization", "Bearer default")] /\
    (tail (log (snd out)) = [(q1, o1)] \/ tail (log (snd out)) = [(q1, o1); (q2, o2)]) /\
    match o1 with
    | Raised _ => aborted
    | Responded r1 =>
        if Requests.is_error_status r1 then aborted
        else if (status_code r1 =? 200)%Z then
          match content r1 with
          | Json _ => tail (log (snd out)) = [(q1, o1); (q2, o2)]
          | NotJson _ => aborted
          end
        else True
    end.
Proof.
  cbv zeta.
  eapply (placeholder_token_is_sent (rt:=cpython) placeholder_accepted
            [guid] variables ∅ _ _ _ token_reply_without_token
            [("token_type", PStr "bearer")]).
  - apply surjective_pairing.
  - reflexivity.
  - reflexivity.
  - reflexivity.
  - reflexivity.
Defined.

(** C6 as stated fails: three answers with status 200 and JSON bodies, an
    entry object without [Username], and the run returns a record. *)
Lemma missing_username_is_returned :
  let out := Pleasant.run (rt:=cpython) username_missing [guid] variables ∅ initial in
  map snd (log (snd out))
  = [Responded token_reply; Responded entry_reply_without_username;
     Responded password_reply]
  /\ fst out = Return [PDict [("username", PStr "None"); ("password", PStr "s3cret")]].
Proof. cbv zeta. split; reflexivity. Qed.

(** C6 as amended, at the same server. *)
Lemma missing_username_yields_None_text_example :
  fst (Pleasant.run (rt:=cpython) username_missing [guid] variables ∅ initial)
  = Return [PDict [("username", PStr "None"); ("password", PStr "s3cret")]].
Proof.
  eapply (missing_username_yields_None_text (rt:=cpython) username_missing
            [guid] variables ∅ _ _ _ _ _ _ _ _
            [("Name", PStr "build account")] (PStr "s3cret")).
  - apply surjective_pairing.
  - reflexivity.
  - reflexivity.
  - reflexivity.
  - reflexivity.
  - reflexivity.
  - reflexivity.
  - reflexivity.
Defined.

(** C8 at the round-trip fixture. *)
Lemma every_call_presents_verify_example :
  let out := Pleasant.run (rt:=cpython) roundtrip [guid] variables ∅ initial in
  Forall (fun x => req_verify (fst x) = PStr "/etc/ssl/certs/ca-bundle.crt")
         (log (snd out))
  /\ forall records, fst out = Return records -> length (log (snd out)) = 3%nat.
Proof.
  cbv zeta.
  apply (every_call_presents_verify (rt:=cpython) roundtrip [guid] variables ∅).
  - reflexivity.
  - apply surjective_pairing.
Defined.

(** ** The further properties at concrete inputs *)

Import Scenarios.

(** X2 without a [pleasant_host]. *)
Lemma host_not_a_string_example :
  Pleasant.run (rt:=cpython) roundtrip [guid] variables_without_host ∅ initial
  = (Raise (Exn TypeError "unsupported operand type(s) for +: 'NoneType' and 'str'"),
     initial).
Proof.
  eapply (host_not_a_string_raises_TypeError (rt:=cpython) roundtrip
            guid [] variables_without_host ∅ initial).
  - reflexivity.
  - intros h H. vm_compute in H. discriminate H.
Defined.

(** X3 at a host without a scheme. *)
Lemma token_unlisted_exception_example :
  Pleasant.run (rt:=cpython) schema_refused [guid] variables_bare_host ∅ initial
  = (Raise missing_schema,
     State [(token_request "vault.example.com" (PStr "svc") (PStr "hunter2")
               (PStr "/etc/ssl/certs/ca-bundle.crt") (PInt 2),
             Raised missing_schema)] []).
Proof.
  eapply (token_unlisted_exception_escapes (rt:=cpython) schema_refused
           "vault.example.com" guid [] variables_bare_host ∅ missing_schema).
  - reflexivity.
  - reflexivity.
  - reflexivity.
  - reflexivity.
Defined.

(** X6 at a password endpoint that answers 503. *)
Lemma failure_after_token_example :
  exists msg,
    fst (Pleasant.run (rt:=cpython) password_unavailable [guid] variables ∅ initial)
    = Raise (Exn AnsibleError ("No entry found " +:+ msg)).
Proof.
  edestruct (failure_after_token_is_wrapped (rt:=cpython) password_unavailable
               [guid] variables ∅
               (Exn AnsibleError
                  ("No entry found An HTTP Error occured 503 Server Error: "
                   +:+ "Service Unavailable for url: " +:+ password_url))
               (snd (Pleasant.run (rt:=cpython) password_unavailable [guid]
                       variables ∅ initial))
               (token_request "https://vault.example.com:10001" (PStr "svc")
                  (PStr "hunter2") (PStr "/etc/ssl/certs/ca-bundle.crt") (PInt 2))
               token_reply) as [msg Hmsg].
  - reflexivity.
  - reflexivity.
  - reflexivity.
  - reflexivity.
  - exists msg. rewrite <- Hmsg. reflexivity.
Defined.

(** X7 at a token document that is an array. *)
Lemma token_document_not_an_object_example :
  fst (Pleasant.run (rt:=cpython) token_is_array [guid] variables ∅ initial)
  = Raise (Exn AnsibleError "No entry found 'list' object has no attribute 'get'").
Proof.
  erewrite (token_document_not_an_object (rt:=cpython) token_is_array
             "https://vault.example.com:10001" guid [] variables ∅
             token_reply_array (PList [PStr "T"])).
  - reflexivity.
  - reflexivity.
  - reflexivity.
  - reflexivity.
  - reflexivity.
  - reflexivity.
  - intros d H. discriminate H.
Defined.

(** X8 at [access_token: null]. *)
Lemma token_not_a_string_example :
  fst (Pleasant.run (rt:=cpython) token_is_null [guid] variables ∅ initial)
  = Raise (Exn AnsibleError
             ("No entry found " +:+ add_error_msg (PStr "Bearer ") PNone)).
Proof.
  erewrite (token_not_a_string (rt:=cpython) token_is_null
             "https://vault.example.com:10001" guid [] variables ∅
             token_reply_null [("access_token", PNone)] PNone).
  - reflexivity.
  - reflexivity.
  - reflexivity.
  - reflexivity.
  - reflexivity.
  - reflexivity.
  - reflexivity.
  - intros s H. discriminate H.
Defined.

(** X9 at an entry document that is an array. *)
Lemma secret_is_fetched_before_the_entry_is_read_example :
  let out := Pleasant.run (rt:=cpython) entry_is_array [guid] variables ∅ initial in
  exists q2 o2,
    tail (tail (log (snd out))) = [(q2, o2)] /\ req_method q2 = "GET"
    /\ req_headers q2 = [("Content-type", "application/json");
                         ("Authorization", "Bearer T")]
    /\ exists e, fst out = Raise e.
Proof.
  cbv zeta.
  eapply (secret_is_fetched_before_the_entry_is_read (rt:=cpython) entry_is_array
            [guid] variables ∅ _ _
            (token_request "https://vault.example.com:10001" (PStr "svc")
               (PStr "hunter2") (PStr "/etc/ssl/certs/ca-bundle.crt") (PInt 2),
             Responded token_reply)
            (entry_request (PStr "https://vault.example.com:10001") guid
               (PStr "/etc/ssl/certs/ca-bundle.crt") (PInt 2) "T")
            entry_reply_array
            (PList [PDict [("Username", PStr "bob")]])).
  - apply surjective_pairing.
  - reflexivity.
  - reflexivity.
  - reflexivity.
  - intros d H. discriminate H.
Defined.

(** X10 at the round-trip fixture. *)
Lemma a_returned_record_example :
  let st' := snd (Pleasant.run (rt:=cpython) roundtrip [guid] variables ∅ initial) in
  exists q0 r0 q1 r1 q2 r2 token entry secret,
    log st' = [(q0, Responded r0); (q1, Responded r1); (q2, Responded r2)]
    /\ Requests.is_error_status r0 = false
    /\ Requests.is_error_status r1 = false
    /\ Requests.is_error_status r2 = false
    /\ content r0 = Json (PDict token)
    /\ content r1 = Json (PDict entry)
    /\ content r2 = Json secret
    /\ [PDict [("username", PStr "bob"); ("password", PStr "s3cret")]]
       = [PDict [("username",
                  PStr (to_text (default PNone (dict_get entry "Username"))));
                 ("password", PStr (to_text secret))]].
Proof.
  cbv zeta.
  apply (a_returned_record_rests_on_three_good_answers (rt:=cpython) roundtrip
           [guid] variables ∅).
  reflexivity.
Defined.

(** X13 at a connection that drops after the token. *)
Lemma entry_connection_failure_example :
  fst (Pleasant.run (rt:=cpython) entry_unreachable [guid] variables ∅ initial)
  = Raise (Exn AnsibleError
             "No entry found Can't connect to host to get token Connection reset by peer").
Proof.
  erewrite (entry_connection_failure_is_wrapped (rt:=cpython) entry_unreachable
             "https://vault.example.com:10001" guid [] variables ∅
             token_reply [("access_token", PStr "T")] "T" connection_reset).
  - reflexivity.
  - reflexivity.
  - reflexivity.
  - reflexivity.
  - reflexivity.
  - reflexivity.
  - reflexivity.
  - reflexivity.
  - reflexivity.
Defined.

(** X14 at rejected credentials. *)
Lemma token_error_status_example :
  Pleasant.run (rt:=cpython) credentials_rejected [guid] variables ∅ initial
  = (Raise (Exn AnsibleError
              ("An HTTP Error occured 401 Client Error: Unauthorized for url: "
               +:+ token_url)),
     State [(token_request "https://vault.example.com:10001" (PStr "svc")
               (PStr "hunter2") (PStr "/etc/ssl/certs/ca-bundle.crt") (PInt 2),
             Responded token_unauthorized)]
           ["Authentication failed getting an access token from Pleasant 401 Unauthorized"]).
Proof.
  eapply (token_error_status_aborts (rt:=cpython) credentials_rejected
           "https://vault.example.com:10001" guid [] variables ∅ token_unauthorized).
  - reflexivity.
  - reflexivity.
  - reflexivity.
  - reflexivity.
Defined.

(** X15 at an entry that does not exist. *)
Lemma entry_error_status_example :
  Pleasant.run (rt:=cpython) entry_missing [guid] variables ∅ initial
  = (Raise (Exn AnsibleError
              ("No entry found An HTTP Error occured 404 Client Error: Not Found for url: "
               +:+ entry_url)),
     State [(token_request "https://vault.example.com:10001" (PStr "svc")
               (PStr "hunter2") (PStr "/etc/ssl/certs/ca-bundle.crt") (PInt 2),
             Responded token_reply);
            (entry_request (PStr "https://vault.example.com:10001") guid
               (PStr "/etc/ssl/certs/ca-bundle.crt") (PInt 2) "T",
             Responded entry_not_found)]
           ["Getting crredential failed: (404 Not Found)"]).
Proof.
  eapply (entry_error_status_aborts (rt:=cpython) entry_missing
           "https://vault.example.com:10001" guid [] variables ∅
           token_reply [("access_token", PStr "T")] "T" entry_not_found).
  - reflexivity.
  - reflexivity.
  - reflexivity.
  - reflexivity.
  - reflexivity.
  - reflexivity.
  - reflexivity.
  - reflexivity.
Defined.

(** X16 at variables and keyword arguments that the options accept. *)
Lemma run_reads_five_variables_example :
  Pleasant.run (rt:=cpython) roundtrip [guid]
    (<["pleasant_lookup_ca_path" := PStr "/tmp/other.crt"]>
       (<["pleasant_lookup_timeout" := PInt 30]> variables))
    (<["verify" := PBool false]> ∅)
  = Pleasant.run (rt:=cpython) roundtrip [guid] variables ∅.
Proof.
  eapply (run_reads_five_variables (rt:=cpython) roundtrip).
  - reflexivity.
  - reflexivity.
  - reflexivity.
  - reflexivity.
  - reflexivity.
  - reflexivity.
  - reflexivity.
Defined.

(** X1 at the fixture variables. *)
Lemma empty_terms_example :
  Pleasant.run (rt:=cpython) roundtrip [] variables ∅ initial
  = (Raise (Exn IndexError "list index out of range"), initial).
Proof.
  eapply (empty_terms_raise_before_any_call (rt:=cpython) roundtrip variables ∅ initial).
  reflexivity.
Defined.


(** C9 as stated fails: with [pleasant_lookup_timeout] set to a text that
    is no number, [src/pleasant.py] refuses its [timeout] option and raises
    before any call, and [src/plugins/lookup/pleasant.py], which declares
    no option, returns the credential. *)
Lemma implementations_differ_on_a_refused_option :
  Pleasant.run (rt:=cpython) roundtrip [guid] variables_bad_timeout ∅ initial
  = (Raise timeout_refused, initial)
  /\ fst (PluginsLookupPleasant.run (rt:=cpython) roundtrip [guid]
            variables_bad_timeout ∅ initial)
     = Return [PDict [("username", PStr "bob"); ("password", PStr "s3cret")]].
Proof. split; reflexivity. Qed.

(** C9 as amended, at the fixture variables. *)
Lemma implementations_agree_example :
  (forall host username password verify timeout,
     Pleasant.get_token (rt:=cpython) roundtrip host username password verify timeout
     = PluginsLookupPleasant.get_token roundtrip host username password verify timeout)
  /\ (forall host guid verify timeout token,
        Pleasant.get_pps_entry (rt:=cpython) roundtrip host guid verify timeout token
        = PluginsLookupPleasant.get_pps_entry roundtrip host guid verify timeout token)
  /\ (forall host guid verify timeout token,
        Pleasant.get_password (rt:=cpython) roundtrip host guid verify timeout token
        = PluginsLookupPleasant.get_password roundtrip host guid verify timeout token)
  /\ Pleasant.run (rt:=cpython) roundtrip [guid] variables ∅
     = PluginsLookupPleasant.run roundtrip [guid] variables ∅.
Proof.
  eapply (implementations_agree_when_options_resolve (rt:=cpython) roundtrip
            [guid] variables ∅).
  reflexivity.
Defined.
